(** * A shallow embedding of the character-device simulator

    The development follows [KernelDriver/kernel-simulator.js]: the
    [KernelSimulator] class with its byte buffer, its statistics, the
    boolean mutex with its wait queue, and the device file operations
    [deviceOpen], [deviceWrite], [deviceRead] and [deviceIoctl].

    JavaScript numbers that the driver only ever uses as integers are
    modelled by [Z]; a [Uint8Array] is a [list byte] whose out-of-range
    writes are dropped and whose out-of-range reads give zero; a string is
    the list of its UTF-16 code units, and [TextDecoder] is the UTF-8
    decoder of the Encoding standard; the body of
    a [setTimeout] callback runs to completion and is one function from
    states to states; exceptions and [try]/[catch]/[finally] are a small
    state-and-exception monad.  Kernel logging and the DOM are left out:
    they never touch the fields modelled here. *)

From Stdlib Require Import ZArith Lia Strings.String Strings.Byte.
From stdpp Require Import base list.

Open Scope Z_scope.

(** ** Data model *)

(** [this.stats] *)
Record Stats := mkStats {
  bytesRead : Z;
  bytesWritten : Z;
  openCount : Z;
  ioctlCount : Z;
  errorCount : Z;
  startTime : Z
}.

(** [this.config] (the fields the file operations read or write) *)
Record Config := mkConfig {
  loggingEnabled : bool;
  maxBufferSize : Z
}.

(** The fields of a [KernelSimulator] object. *)
Record KernelSimulator := mkKernel {
  moduleLoaded : bool;
  bufferView : list byte;
  bufferSize : Z;
  bufferUsed : Z;
  bufferPosition : Z;
  stats : Stats;
  activeReaders : Z;
  activeWriters : Z;
  waitQueue : list Z;
  mutex : bool;
  config : Config
}.

(** The errors the operations raise, by their message:
    ['No such device'], ['Resource busy'], ['Buffer full'],
    ['Buffer size exceeds maximum allowed'], ['Invalid IOCTL command'],
    and the engine's [RangeError] for a negative array length. *)
Inductive Error :=
| NoSuchDevice
| ResourceBusy
| BufferFull
| BufferSizeExceedsMax
| InvalidIoctl
| RangeError.

(** What a promise has been settled with.  [Pending] is a promise whose
    executor finished without calling [resolve] or [reject]. *)
Inductive Promise (A : Type) :=
| Resolved (a : A)
| Rejected (e : Error)
| Pending.
Arguments Resolved {A} a.
Arguments Rejected {A} e.
Arguments Pending {A}.

Record WriteResult := mkWriteResult { res_bytesWritten : Z }.
(** [data] is a string, [bytesRead] a number. *)
Record ReadResult := mkReadResult { res_data : list Z; res_bytesRead : Z }.

(** The [message] field of an ioctl result. *)
Inductive IoctlResult :=
| BufferCleared
| BufferSizeSet (newSize : Z)
| LoggingToggled (enabled : bool).

(** ** Field updates *)

Definition set_moduleLoaded (v : bool) (s : KernelSimulator) : KernelSimulator :=
  mkKernel v (bufferView s) (bufferSize s) (bufferUsed s) (bufferPosition s)
    (stats s) (activeReaders s) (activeWriters s) (waitQueue s) (mutex s) (config s).

Definition set_bufferView (v : list byte) (s : KernelSimulator) : KernelSimulator :=
  mkKernel (moduleLoaded s) v (bufferSize s) (bufferUsed s) (bufferPosition s)
    (stats s) (activeReaders s) (activeWriters s) (waitQueue s) (mutex s) (config s).

Definition set_bufferSize (v : Z) (s : KernelSimulator) : KernelSimulator :=
  mkKernel (moduleLoaded s) (bufferView s) v (bufferUsed s) (bufferPosition s)
    (stats s) (activeReaders s) (activeWriters s) (waitQueue s) (mutex s) (config s).

Definition set_bufferUsed (v : Z) (s : KernelSimulator) : KernelSimulator :=
  mkKernel (moduleLoaded s) (bufferView s) (bufferSize s) v (bufferPosition s)
    (stats s) (activeReaders s) (activeWriters s) (waitQueue s) (mutex s) (config s).

Definition set_bufferPosition (v : Z) (s : KernelSimulator) : KernelSimulator :=
  mkKernel (moduleLoaded s) (bufferView s) (bufferSize s) (bufferUsed s) v
    (stats s) (activeReaders s) (activeWriters s) (waitQueue s) (mutex s) (config s).

Definition set_stats (v : Stats) (s : KernelSimulator) : KernelSimulator :=
  mkKernel (moduleLoaded s) (bufferView s) (bufferSize s) (bufferUsed s) (bufferPosition s)
    v (activeReaders s) (activeWriters s) (waitQueue s) (mutex s) (config s).

Definition set_activeReaders (v : Z) (s : KernelSimulator) : KernelSimulator :=
  mkKernel (moduleLoaded s) (bufferView s) (bufferSize s) (bufferUsed s) (bufferPosition s)
    (stats s) v (activeWriters s) (waitQueue s) (mutex s) (config s).

Definition set_activeWriters (v : Z) (s : KernelSimulator) : KernelSimulator :=
  mkKernel (moduleLoaded s) (bufferView s) (bufferSize s) (bufferUsed s) (bufferPosition s)
    (stats s) (activeReaders s) v (waitQueue s) (mutex s) (config s).

Definition set_waitQueue (v : list Z) (s : KernelSimulator) : KernelSimulator :=
  mkKernel (moduleLoaded s) (bufferView s) (bufferSize s) (bufferUsed s) (bufferPosition s)
    (stats s) (activeReaders s) (activeWriters s) v (mutex s) (config s).

Definition set_mutex (v : bool) (s : KernelSimulator) : KernelSimulator :=
  mkKernel (moduleLoaded s) (bufferView s) (bufferSize s) (bufferUsed s) (bufferPosition s)
    (stats s) (activeReaders s) (activeWriters s) (waitQueue s) v (config s).

Definition set_config (v : Config) (s : KernelSimulator) : KernelSimulator :=
  mkKernel (moduleLoaded s) (bufferView s) (bufferSize s) (bufferUsed s) (bufferPosition s)
    (stats s) (activeReaders s) (activeWriters s) (waitQueue s) (mutex s) v.

Definition add_bytesRead (n : Z) (t : Stats) : Stats :=
  mkStats (bytesRead t + n) (bytesWritten t) (openCount t) (ioctlCount t)
    (errorCount t) (startTime t).

Definition add_bytesWritten (n : Z) (t : Stats) : Stats :=
  mkStats (bytesRead t) (bytesWritten t + n) (openCount t) (ioctlCount t)
    (errorCount t) (startTime t).

Definition incr_openCount (t : Stats) : Stats :=
  mkStats (bytesRead t) (bytesWritten t) (openCount t + 1) (ioctlCount t)
    (errorCount t) (startTime t).

Definition incr_ioctlCount (t : Stats) : Stats :=
  mkStats (bytesRead t) (bytesWritten t) (openCount t) (ioctlCount t + 1)
    (errorCount t) (startTime t).

Definition incr_errorCount (t : Stats) : Stats :=
  mkStats (bytesRead t) (bytesWritten t) (openCount t) (ioctlCount t)
    (errorCount t + 1) (startTime t).

(** [{ ...this.stats, startTime: now }] *)
Definition with_startTime (now : Z) (t : Stats) : Stats :=
  mkStats (bytesRead t) (bytesWritten t) (openCount t) (ioctlCount t)
    (errorCount t) now.

(** ** Typed arrays and loops *)

(** [a[i]] on a [Uint8Array], read into a number and stored back into a
    [Uint8Array]: an index outside the array reads [undefined], which is
    stored as zero. *)
Definition u8_get (a : list byte) (i : Z) : byte :=
  if i <? 0 then x00 else default x00 (a !! Z.to_nat i).

(** [a[i] = v] on a [Uint8Array]: an index outside the array is ignored. *)
Definition u8_set (a : list byte) (i : Z) (v : byte) : list byte :=
  if i <? 0 then a else <[Z.to_nat i := v]> a.

(** [new Uint8Array(n)] for [0 <= n]. *)
Definition u8_new (n : Z) : list byte := replicate (Z.to_nat n) x00.

(** [for (let i = 0; i < n; i++) body(i)] over a loop-carried value. *)
Definition for_loop {S : Type} (n : Z) (body : Z -> S -> S) (s : S) : S :=
  fold_left (fun acc i => body (Z.of_nat i) acc) (seq 0 (Z.to_nat n)) s.

(** [a.length] *)
Definition len {A : Type} (a : list A) : Z := Z.of_nat (length a).

(** ** Exceptions over the driver state *)

Inductive Completion (A : Type) :=
| Normal (a : A)
| Throw (e : Error).
Arguments Normal {A} a.
Arguments Throw {A} e.

Definition Exec (A : Type) : Type :=
  KernelSimulator -> KernelSimulator * Completion A.

Definition ret {A : Type} (a : A) : Exec A := fun s => (s, Normal a).

Definition bind {A B : Type} (m : Exec A) (k : A -> Exec B) : Exec B :=
  fun s =>
    match m s with
    | (s1, Normal a) => k a s1
    | (s1, Throw e) => (s1, Throw e)
    end.

Definition throw {A : Type} (e : Error) : Exec A := fun s => (s, Throw e).

Definition get_this : Exec KernelSimulator := fun s => (s, Normal s).

Definition modify (f : KernelSimulator -> KernelSimulator) : Exec unit :=
  fun s => (f s, Normal tt).

(** [try { m } catch (error) { h error }] *)
Definition try_catch {A : Type} (m : Exec A) (h : Error -> Exec A) : Exec A :=
  fun s =>
    match m s with
    | (s1, Normal a) => (s1, Normal a)
    | (s1, Throw e) => h e s1
    end.

(** [try { m } finally { f }]: [f] runs on both exits, and an exception
    of [f] replaces the completion of [m]. *)
Definition try_finally {A : Type} (m : Exec A) (f : Exec unit) : Exec A :=
  fun s =>
    match m s with
    | (s1, c) =>
        match f s1 with
        | (s2, Normal _) => (s2, c)
        | (s2, Throw e) => (s2, Throw e)
        end
    end.

(** The promise a timer callback leaves behind: a callback that escapes
    with an exception never settles it. *)
Definition settled {A : Type} (r : KernelSimulator * Completion (Promise A))
  : KernelSimulator * Promise A :=
  match r with
  | (s, Normal p) => (s, p)
  | (s, Throw _) => (s, Pending)
  end.

Declare Scope exec_scope.
Delimit Scope exec_scope with exec.
Notation "x <- m ;; k" := (bind m (fun x => k))
  (at level 100, m at next level, right associativity) : exec_scope.
Notation "m ;;; k" := (bind m (fun _ => k))
  (at level 100, right associativity) : exec_scope.
Open Scope exec_scope.

(** [new Uint8Array(n)] and [new ArrayBuffer(n)] as statements: a negative
    length raises a [RangeError]. *)
Definition u8_alloc (n : Z) : Exec (list byte) :=
  if n <? 0 then throw RangeError else ret (u8_new n).

(** [a % b] for a non-zero [b]: the remainder takes the sign of [a]. *)
Definition js_rem (a b : Z) : Z := Z.rem a b.

(** [arg || dflt] on an optional number: [undefined], [null] and [0] are
    falsy. *)
Definition js_or (arg : option Z) (dflt : Z) : Z :=
  match arg with
  | Some n => if n =? 0 then dflt else n
  | None => dflt
  end.

(** ** Text decoding

    [deviceRead] hands its bytes to [new TextDecoder().decode(...)]: the
    UTF-8 decoder of the platform with its default options (errors are
    replaced by U+FFFD, a byte order mark at the start is dropped).  A
    JavaScript string is the list of its UTF-16 code units. *)

(** The number a [Uint8Array] cell holds. *)
Definition byte_val (b : byte) : Z := Z.of_N (Byte.to_N b).

(** The decoder's variables: the code point being assembled, the
    continuation bytes seen and needed, and the range allowed for the
    next continuation byte. *)
Record Utf8Decoder := mkUtf8 {
  utf8_codePoint : Z;
  utf8_bytesSeen : Z;
  utf8_bytesNeeded : Z;
  utf8_lowerBoundary : Z;
  utf8_upperBoundary : Z
}.

Definition utf8_start : Utf8Decoder := mkUtf8 0 0 0 0x80 0xBF.

Definition REPLACEMENT : Z := 0xFFFD.
Definition BOM : Z := 0xFEFF.

(** A byte met while no sequence is open: the new variables and the code
    points given out. *)
Definition utf8_lead (b : Z) : Utf8Decoder * list Z :=
  if b <=? 0x7F then (utf8_start, [b])
  else if (0xC2 <=? b) && (b <=? 0xDF) then
    (mkUtf8 (Z.land b 0x1F) 0 1 0x80 0xBF, [])
  else if (0xE0 <=? b) && (b <=? 0xEF) then
    (mkUtf8 (Z.land b 0xF) 0 2
       (if b =? 0xE0 then 0xA0 else 0x80) (if b =? 0xED then 0x9F else 0xBF), [])
  else if (0xF0 <=? b) && (b <=? 0xF4) then
    (mkUtf8 (Z.land b 0x7) 0 3
       (if b =? 0xF0 then 0x90 else 0x80) (if b =? 0xF4 then 0x8F else 0xBF), [])
  else (utf8_start, [REPLACEMENT]).

(** One byte through the decoder.  A byte outside the allowed range closes
    the open sequence with U+FFFD and is then looked at again as the first
    byte of a sequence. *)
Definition utf8_handler (d : Utf8Decoder) (b : Z) : Utf8Decoder * list Z :=
  if utf8_bytesNeeded d =? 0 then utf8_lead b
  else if (b <? utf8_lowerBoundary d) || (utf8_upperBoundary d <? b) then
    (fst (utf8_lead b), REPLACEMENT :: snd (utf8_lead b))
  else
    let codePoint := Z.lor (Z.shiftl (utf8_codePoint d) 6) (Z.land b 0x3F) in
    if utf8_bytesSeen d + 1 =? utf8_bytesNeeded d then (utf8_start, [codePoint])
    else (mkUtf8 codePoint (utf8_bytesSeen d + 1) (utf8_bytesNeeded d) 0x80 0xBF, []).

(** The code points of a whole input; a sequence still open at the end of
    the input gives one U+FFFD. *)
Fixpoint utf8_decode (d : Utf8Decoder) (input : list byte) : list Z :=
  match input with
  | [] => if utf8_bytesNeeded d =? 0 then [] else [REPLACEMENT]
  | b :: rest =>
      let r := utf8_handler d (byte_val b) in
      snd r ++ utf8_decode (fst r) rest
  end.

(** The first code point is dropped when it is the byte order mark. *)
Definition strip_BOM (codePoints : list Z) : list Z :=
  match codePoints with
  | c :: rest => if c =? BOM then rest else codePoints
  | [] => []
  end.

(** The UTF-16 code units of a code point. *)
Definition utf16_units (c : Z) : list Z :=
  if c <? 0x10000 then [c]
  else [0xD800 + Z.shiftr (c - 0x10000) 10; 0xDC00 + Z.land (c - 0x10000) 0x3FF].

(** [new TextDecoder().decode(input)] *)
Definition TextDecoder_decode (input : list byte) : list Z :=
  concat (map utf16_units (strip_BOM (utf8_decode utf8_start input))).

(** ** The driver *)

(** [new KernelSimulator()], constructed at time [now]. *)
Definition newKernelSimulator (now : Z) : KernelSimulator :=
  mkKernel true (u8_new 1024) 1024 0 0 (mkStats 0 0 0 0 0 now)
    0 0 [] false (mkConfig true 8192).

Definition acquireMutex (now : Z) : Exec unit :=
  this <- get_this ;;
  if mutex this then
    (modify (fun s => set_waitQueue (waitQueue s ++ [now]) s) ;;;
     throw ResourceBusy)
  else modify (set_mutex true).

Definition releaseMutex : Exec unit :=
  modify (set_mutex false) ;;;
  this <- get_this ;;
  if 0 <? len (waitQueue this)
  then modify (fun s => set_waitQueue (tail (waitQueue s)) s)
  else ret tt.

(** [deviceOpen()] is synchronous and throws. *)
Definition deviceOpen : Exec unit :=
  this <- get_this ;;
  if negb (moduleLoaded this) then throw NoSuchDevice
  else modify (fun s => set_stats (incr_openCount (stats s)) s).

(** *** [deviceWrite]

    [dataBytes] is [new TextEncoder().encode(data)].  The [try] block of
    the timer callback; its value is the settlement it performs. *)
Definition deviceWrite_try (dataBytes : list byte) (now : Z)
  : Exec (Promise WriteResult) :=
  acquireMutex now ;;;
  modify (fun s => set_activeWriters (activeWriters s + 1) s) ;;;
  this <- get_this ;;
  let bytesToWrite := Z.min (len dataBytes) (bufferSize this - bufferUsed this) in
  if bytesToWrite =? 0 then ret (Rejected BufferFull)
  else
    modify (fun s => set_bufferView
      (for_loop bytesToWrite
         (fun i view => u8_set view (bufferPosition s + i) (u8_get dataBytes i))
         (bufferView s)) s) ;;;
    modify (fun s => set_bufferUsed (bufferUsed s + bytesToWrite) s) ;;;
    modify (fun s => set_bufferPosition
      (js_rem (bufferPosition s + bytesToWrite) (bufferSize s)) s) ;;;
    modify (fun s => set_stats (add_bytesWritten bytesToWrite (stats s)) s) ;;;
    ret (Resolved (mkWriteResult bytesToWrite)).

Definition deviceWrite_catch (error : Error) : Exec (Promise WriteResult) :=
  modify (fun s => set_stats (incr_errorCount (stats s)) s) ;;;
  ret (Rejected error).

Definition deviceWrite_finally : Exec unit :=
  modify (fun s => set_activeWriters (activeWriters s - 1) s) ;;;
  releaseMutex.

(** The whole callback handed to [setTimeout]. *)
Definition deviceWrite_timer (dataBytes : list byte) (now : Z)
  (s : KernelSimulator) : KernelSimulator * Promise WriteResult :=
  settled (try_finally (try_catch (deviceWrite_try dataBytes now) deviceWrite_catch)
             deviceWrite_finally s).

(** The module check of the promise executor followed by the callback. *)
Definition deviceWrite (dataBytes : list byte) (now : Z)
  (s : KernelSimulator) : KernelSimulator * Promise WriteResult :=
  if negb (moduleLoaded s) then (s, Rejected NoSuchDevice)
  else deviceWrite_timer dataBytes now s.

(** *** [deviceRead]

    The result carries [data], the string [TextDecoder] makes of
    [readBuffer]; the empty read carries the empty string. *)
Definition deviceRead_try (count : Z) (now : Z) : Exec (Promise ReadResult) :=
  acquireMutex now ;;;
  modify (fun s => set_activeReaders (activeReaders s + 1) s) ;;;
  this <- get_this ;;
  let bytesToRead := Z.min count (bufferUsed this) in
  if bytesToRead =? 0 then ret (Resolved (mkReadResult [] 0))
  else
    readBuffer0 <- u8_alloc bytesToRead ;;
    let startPos := Z.max 0 (bufferPosition this - bufferUsed this) in
    let readBuffer :=
      for_loop bytesToRead
        (fun i rb => u8_set rb i
           (u8_get (bufferView this) (js_rem (startPos + i) (bufferSize this))))
        readBuffer0 in
    let data := TextDecoder_decode readBuffer in
    modify (fun s => set_bufferUsed (bufferUsed s - bytesToRead) s) ;;;
    modify (fun s => set_stats (add_bytesRead bytesToRead (stats s)) s) ;;;
    ret (Resolved (mkReadResult data bytesToRead)).

Definition deviceRead_catch (error : Error) : Exec (Promise ReadResult) :=
  modify (fun s => set_stats (incr_errorCount (stats s)) s) ;;;
  ret (Rejected error).

Definition deviceRead_finally : Exec unit :=
  modify (fun s => set_activeReaders (activeReaders s - 1) s) ;;;
  releaseMutex.

Definition deviceRead_timer (count : Z) (now : Z)
  (s : KernelSimulator) : KernelSimulator * Promise ReadResult :=
  settled (try_finally (try_catch (deviceRead_try count now) deviceRead_catch)
             deviceRead_finally s).

Definition deviceRead (count : Z) (now : Z)
  (s : KernelSimulator) : KernelSimulator * Promise ReadResult :=
  if negb (moduleLoaded s) then (s, Rejected NoSuchDevice)
  else deviceRead_timer count now s.

(** *** [resizeBuffer] and [deviceIoctl] *)
Definition resizeBuffer (newSize : Z) : Exec unit :=
  newView0 <- u8_alloc newSize ;;
  this <- get_this ;;
  let copySize := Z.min (bufferUsed this) newSize in
  let newView :=
    for_loop copySize (fun i view => u8_set view i (u8_get (bufferView this) i))
      newView0 in
  modify (set_bufferView newView) ;;;
  modify (set_bufferSize newSize) ;;;
  modify (fun s => set_bufferUsed (Z.min (bufferUsed s) newSize) s) ;;;
  modify (fun s => set_bufferPosition (Z.min (bufferPosition s) newSize) s).

Definition deviceIoctl_try (cmd : string) (arg : option Z)
  : Exec (Promise IoctlResult) :=
  modify (fun s => set_stats (incr_ioctlCount (stats s)) s) ;;;
  if String.eqb cmd "CLEAR_BUFFER" then
    modify (fun s => set_bufferView (map (fun _ => x00) (bufferView s)) s) ;;;
    modify (set_bufferUsed 0) ;;;
    modify (set_bufferPosition 0) ;;;
    ret (Resolved BufferCleared)
  else if String.eqb cmd "SET_BUFFER_SIZE" then
    let newSize := js_or arg 2048 in
    this <- get_this ;;
    if newSize >? maxBufferSize (config this) then throw BufferSizeExceedsMax
    else
      resizeBuffer newSize ;;;
      ret (Resolved (BufferSizeSet newSize))
  else if String.eqb cmd "ENABLE_LOGGING" then
    modify (fun s => set_config
      (mkConfig (negb (loggingEnabled (config s))) (maxBufferSize (config s))) s) ;;;
    this <- get_this ;;
    ret (Resolved (LoggingToggled (loggingEnabled (config this))))
  else throw InvalidIoctl.

Definition deviceIoctl_catch (error : Error) : Exec (Promise IoctlResult) :=
  modify (fun s => set_stats (incr_errorCount (stats s)) s) ;;;
  ret (Rejected error).

Definition deviceIoctl_timer (cmd : string) (arg : option Z)
  (s : KernelSimulator) : KernelSimulator * Promise IoctlResult :=
  settled (try_catch (deviceIoctl_try cmd arg) deviceIoctl_catch s).

Definition deviceIoctl (cmd : string) (arg : option Z)
  (s : KernelSimulator) : KernelSimulator * Promise IoctlResult :=
  if negb (moduleLoaded s) then (s, Rejected NoSuchDevice)
  else deviceIoctl_timer cmd arg s.

(** *** Module management *)
Definition loadModule (now : Z) (s : KernelSimulator) : KernelSimulator :=
  set_stats (with_startTime now (stats s)) (set_moduleLoaded true s).

Definition unloadModule (s : KernelSimulator) : KernelSimulator :=
  set_waitQueue [] (set_activeWriters 0 (set_activeReaders 0 (set_moduleLoaded false s))).

(** The bytes of an ASCII literal, for examples, and the JavaScript
    string with the same characters. *)
Definition bytes (s : string) : list byte := list_byte_of_string s.

Definition text (s : string) : list Z := map byte_val (bytes s).

(** ** Steps of a run

    A [deviceWrite], [deviceRead] or [deviceIoctl] call checks
    [moduleLoaded] at once and leaves the rest to a timer callback.  [run]
    performs one step on the driver object and reports how it ended:
    [OpWrite], [OpRead] and [OpIoctl] are a call whose callback fires before
    anything else happens; [OpWriteTimer], [OpReadTimer] and [OpIoctlTimer]
    are the callback of an earlier call firing on its own, whatever has
    happened to the module since. *)
Inductive Op :=
| OpOpen
| OpWrite (dataBytes : list byte) (now : Z)
| OpRead (count : Z) (now : Z)
| OpIoctl (cmd : string) (arg : option Z)
| OpLoad (now : Z)
| OpUnload
| OpWriteTimer (dataBytes : list byte) (now : Z)
| OpReadTimer (count : Z) (now : Z)
| OpIoctlTimer (cmd : string) (arg : option Z).

Inductive Outcome :=
| Failed (e : Error)
| Opened
| Wrote (r : WriteResult)
| ReadBack (r : ReadResult)
| Controlled (r : IoctlResult)
| Returned
| Unsettled.

Definition outcome_of {A : Type} (ok : A -> Outcome) (p : Promise A) : Outcome :=
  match p with
  | Resolved a => ok a
  | Rejected e => Failed e
  | Pending => Unsettled
  end.

Definition run (op : Op) (s : KernelSimulator) : KernelSimulator * Outcome :=
  match op with
  | OpOpen =>
      match deviceOpen s with
      | (s1, Normal _) => (s1, Opened)
      | (s1, Throw e) => (s1, Failed e)
      end
  | OpWrite dataBytes now =>
      let r := deviceWrite dataBytes now s in (fst r, outcome_of Wrote (snd r))
  | OpRead count now =>
      let r := deviceRead count now s in (fst r, outcome_of ReadBack (snd r))
  | OpIoctl cmd arg =>
      let r := deviceIoctl cmd arg s in (fst r, outcome_of Controlled (snd r))
  | OpLoad now => (loadModule now s, Returned)
  | OpUnload => (unloadModule s, Returned)
  | OpWriteTimer dataBytes now =>
      let r := deviceWrite_timer dataBytes now s in (fst r, outcome_of Wrote (snd r))
  | OpReadTimer count now =>
      let r := deviceRead_timer count now s in (fst r, outcome_of ReadBack (snd r))
  | OpIoctlTimer cmd arg =>
      let r := deviceIoctl_timer cmd arg s in (fst r, outcome_of Controlled (snd r))
  end.

(** The state after a sequence of steps, and the states passed through. *)
Definition run_all (ops : list Op) (s : KernelSimulator) : KernelSimulator :=
  fold_left (fun acc op => fst (run op acc)) ops s.

Fixpoint states_after (ops : list Op) (s : KernelSimulator) : list KernelSimulator :=
  match ops with
  | [] => []
  | op :: rest => let s1 := fst (run op s) in s1 :: states_after rest s1
  end.

(** The steps that enter the critical section of a write or a read. *)
Definition is_data_op (op : Op) : bool :=
  match op with
  | OpWrite _ _ | OpRead _ _ | OpWriteTimer _ _ | OpReadTimer _ _ => true
  | _ => false
  end.

(** ** Predicates on states *)

(** The capacity invariant of the buffer. *)
Definition used_in_bounds (s : KernelSimulator) : Prop :=
  0 <= bufferUsed s <= bufferSize s.

(** The shape of the buffer that the constructor sets up. *)
Definition buffer_wf (s : KernelSimulator) : Prop :=
  0 < bufferSize s /\ len (bufferView s) = bufferSize s /\
  0 <= bufferUsed s <= bufferSize s /\
  0 <= bufferPosition s <= bufferSize s.

(** No operation is inside its critical section. *)
Definition idle (s : KernelSimulator) : Prop :=
  mutex s = false /\ activeReaders s = 0 /\ activeWriters s = 0.

(** Bytes that are all ASCII characters. *)
Definition ascii_only (B : list byte) : Prop :=
  Forall (fun b => byte_val b <= 0x7F) B.

(** Two states hold the same buffer. *)
Definition same_buffer (s s' : KernelSimulator) : Prop :=
  bufferSize s' = bufferSize s /\ bufferView s' = bufferView s /\
  bufferUsed s' = bufferUsed s /\ bufferPosition s' = bufferPosition s.

(** The five counters of [stats], compared pointwise. *)
Definition counters_le (t t' : Stats) : Prop :=
  bytesRead t <= bytesRead t' /\ bytesWritten t <= bytesWritten t' /\
  openCount t <= openCount t' /\ ioctlCount t <= ioctlCount t' /\
  errorCount t <= errorCount t'.

Definition counters_eq (t t' : Stats) : Prop :=
  bytesRead t = bytesRead t' /\ bytesWritten t = bytesWritten t' /\
  openCount t = openCount t' /\ ioctlCount t = ioctlCount t' /\
  errorCount t = errorCount t'.

(** The readable region as [deviceRead] locates it: [n] bytes from
    [max 0 (bufferPosition - bufferUsed)], indices taken modulo the size. *)
Definition read_window (s : KernelSimulator) (n : Z) : list byte :=
  let startPos := Z.max 0 (bufferPosition s - bufferUsed s) in
  map (fun i => u8_get (bufferView s) (js_rem (startPos + Z.of_nat i) (bufferSize s)))
    (seq 0 (Z.to_nat n)).

(** The region the data model describes: [n] bytes from
    [(bufferPosition - bufferUsed + bufferSize) mod bufferSize], wrapping. *)
Definition ring_window (s : KernelSimulator) (n : Z) : list byte :=
  let start := (bufferPosition s - bufferUsed s + bufferSize s) mod bufferSize s in
  map (fun i => u8_get (bufferView s) ((start + Z.of_nat i) mod bufferSize s))
    (seq 0 (Z.to_nat n)).

(** The storage [deviceWrite] leaves behind after copying [n] bytes. *)
Definition written_view (s : KernelSimulator) (dataBytes : list byte) (n : Z) : list byte :=
  for_loop n (fun i view => u8_set view (bufferPosition s + i) (u8_get dataBytes i))
    (bufferView s).

(** The [readBuffer] that [deviceRead] fills with [n] bytes. *)
Definition read_bytes (s : KernelSimulator) (n : Z) : list byte :=
  for_loop n
    (fun i rb => u8_set rb i
       (u8_get (bufferView s)
          (js_rem (Z.max 0 (bufferPosition s - bufferUsed s) + i) (bufferSize s))))
    (u8_new n).

(** The storage [resizeBuffer] builds. *)
Definition resized_view (s : KernelSimulator) (newSize : Z) : list byte :=
  for_loop (Z.min (bufferUsed s) newSize)
    (fun i view => u8_set view i (u8_get (bufferView s) i)) (u8_new newSize).

(** The driver object after a write callback, a read callback or a failed
    ioctl has gone through its error handler and its cleanup. *)
Definition after_busy_write (now : Z) (s : KernelSimulator) : KernelSimulator :=
  mkKernel (moduleLoaded s) (bufferView s) (bufferSize s) (bufferUsed s)
    (bufferPosition s) (incr_errorCount (stats s)) (activeReaders s)
    (activeWriters s - 1) (tail (waitQueue s ++ [now])) false (config s).

Definition after_busy_read (now : Z) (s : KernelSimulator) : KernelSimulator :=
  mkKernel (moduleLoaded s) (bufferView s) (bufferSize s) (bufferUsed s)
    (bufferPosition s) (incr_errorCount (stats s)) (activeReaders s - 1)
    (activeWriters s) (tail (waitQueue s ++ [now])) false (config s).

(** ** The instants of a step

    The driver object at the boundaries of the statements of a write or
    read callback that assign the mutex or an active counter: on entry,
    after [acquireMutex], after the increment, at the end of
    [try]/[catch], after the decrement in [finally], and after
    [releaseMutex].  The statements in between assign neither. *)
Definition deviceWrite_instants (dataBytes : list byte) (now : Z)
  (s : KernelSimulator) : list KernelSimulator :=
  let guarded := try_catch (deviceWrite_try dataBytes now) deviceWrite_catch in
  [ s;
    fst (acquireMutex now s);
    fst ((acquireMutex now ;;;
          modify (fun s => set_activeWriters (activeWriters s + 1) s)) s);
    fst (guarded s);
    fst (try_finally guarded
           (modify (fun s => set_activeWriters (activeWriters s - 1) s)) s);
    fst (deviceWrite_timer dataBytes now s) ].

Definition deviceRead_instants (count : Z) (now : Z)
  (s : KernelSimulator) : list KernelSimulator :=
  let guarded := try_catch (deviceRead_try count now) deviceRead_catch in
  [ s;
    fst (acquireMutex now s);
    fst ((acquireMutex now ;;;
          modify (fun s => set_activeReaders (activeReaders s + 1) s)) s);
    fst (guarded s);
    fst (try_finally guarded
           (modify (fun s => set_activeReaders (activeReaders s - 1) s)) s);
    fst (deviceRead_timer count now s) ].

(** The instants of any step: a call refused by the module check never
    reaches the callback, and the other steps do not assign the counters
    between their start and their end. *)
Definition instants (op : Op) (s : KernelSimulator) : list KernelSimulator :=
  match op with
  | OpWrite dataBytes now =>
      if negb (moduleLoaded s) then [s] else deviceWrite_instants dataBytes now s
  | OpRead count now =>
      if negb (moduleLoaded s) then [s] else deviceRead_instants count now s
  | OpWriteTimer dataBytes now => deviceWrite_instants dataBytes now s
  | OpReadTimer count now => deviceRead_instants count now s
  | _ => [s; fst (run op s)]
  end.



(** ** The rest of the simulator and its callers *)

(** The steps that are ioctl commands. *)
Definition is_ioctl_op (op : Op) : bool :=
  match op with
  | OpIoctl _ _ | OpIoctlTimer _ _ => true
  | _ => false
  end.

(** Every byte read was written before: the bytes handed out plus the
    bytes still unread never exceed the bytes accepted. *)
Definition accounted (s : KernelSimulator) : Prop :=
  0 <= bufferUsed s <= bufferSize s /\
  bytesRead (stats s) + bufferUsed s <= bytesWritten (stats s).

Definition balanced (s : KernelSimulator) : Prop :=
  0 <= bufferUsed s <= bufferSize s /\
  bytesRead (stats s) + bufferUsed s = bytesWritten (stats s).

(** *** [getStats]

    The integer fields of the snapshot; [uptime], [readRate] and
    [writeRate] are floating-point quotients and are left out. *)
Record StatsSnapshot := mkSnapshot {
  snap_stats : Stats;
  snap_bufferSize : Z;
  snap_bufferUsed : Z;
  snap_bufferFree : Z;
  snap_activeReaders : Z;
  snap_activeWriters : Z;
  snap_queueLength : Z
}.

Definition getStats (s : KernelSimulator) : StatsSnapshot :=
  mkSnapshot (stats s) (bufferSize s) (bufferUsed s) (bufferSize s - bufferUsed s)
    (activeReaders s) (activeWriters s) (len (waitQueue s)).

(** *** The kernel log *)
Record LogEntry := mkLogEntry {
  log_timestamp : string;
  log_level : string;
  log_message : string;
  log_pid : Z
}.

(** [logKernel(level, message)] on [this.kernelLogs]; [timestamp] and [pid]
    are what the clock and [Math.random] supply. *)
Definition logKernel (timestamp : string) (pid : Z) (level message : string)
  (kernelLogs : list LogEntry) : list LogEntry :=
  let logEntry := mkLogEntry timestamp level message pid in
  let pushed := kernelLogs ++ [logEntry] in
  if len pushed >? 100 then tail pushed else pushed.

(** A sequence of [logKernel] calls, each given by the entry it builds. *)
Definition logKernel_all (calls : list LogEntry) (kernelLogs : list LogEntry)
  : list LogEntry :=
  fold_left
    (fun logs e =>
       logKernel (log_timestamp e) (log_pid e) (log_level e) (log_message e) logs)
    calls kernelLogs.

(** [a.slice(start)] for an integer [start]: a negative [start] counts from
    the end of the array. *)
Definition js_slice {A : Type} (start : Z) (a : list A) : list A :=
  if start <? 0 then drop (Z.to_nat (Z.max (len a + start) 0)) a
  else drop (Z.to_nat (Z.min start (len a))) a.

(** [window.getKernelLogs(count)]: [kernelLogs.slice(-count)]. *)
Definition getKernelLogs (count : Z) (kernelLogs : list LogEntry) : list LogEntry :=
  js_slice (- count) kernelLogs.

(** *** The throughput chart of the dashboard

    [Num] stands for the numbers the chart stores; [falsy] tells those that
    [||] replaces (zero and NaN). *)
Record ChartData (Num : Type) := mkChartData {
  labels : list string;
  readData : list Num;
  writeData : list Num;
  maxPoints : Z
}.
Arguments mkChartData {Num} _ _ _ _.
Arguments labels {Num} _.
Arguments readData {Num} _.
Arguments writeData {Num} _.
Arguments maxPoints {Num} _.

(** [new MonitoringDashboard().chartData] *)
Definition newChartData {Num : Type} : ChartData Num := mkChartData [] [] [] 30.

(** [updateChart(stats)] on [this.chartData]; [now] is the formatted time. *)
Definition updateChart {Num : Type} (zero : Num) (falsy : Num -> bool)
  (now : string) (readRate writeRate : Num) (c : ChartData Num) : ChartData Num :=
  let or_zero := fun x => if falsy x then zero else x in
  let labels1 := labels c ++ [now] in
  let readData1 := readData c ++ [or_zero readRate] in
  let writeData1 := writeData c ++ [or_zero writeRate] in
  if len labels1 >? maxPoints c
  then mkChartData (tail labels1) (tail readData1) (tail writeData1) (maxPoints c)
  else mkChartData labels1 readData1 writeData1 (maxPoints c).

(** A sequence of chart updates, each with its time label and rates. *)
Definition updateChart_all {Num : Type} (zero : Num) (falsy : Num -> bool)
  (updates : list (string * Num * Num)) (c : ChartData Num) : ChartData Num :=
  fold_left
    (fun acc u =>
       match u with
       | (now, readRate, writeRate) => updateChart zero falsy now readRate writeRate acc
       end)
    updates c.

(** *** DMA transfers *)
Record Dma := mkDma {
  channels : Z;
  activeTransfers : Z;
  totalTransferred : Z;
  errors : Z
}.

(** [this.dma] as the constructor sets it. *)
Definition newDma : Dma := mkDma 4 0 0 0.

(** [simulateDMA()], the part that runs at the call: [transferSize] is the
    drawn size; the boolean tells whether a transfer was started (and its
    completion timer scheduled). *)
Definition simulateDMA (dmaEnabled : bool) (transferSize : Z) (d : Dma) : Dma * bool :=
  if negb dmaEnabled || (activeTransfers d >=? channels d) then (d, false)
  else (mkDma (channels d) (activeTransfers d + 1) (totalTransferred d) (errors d),
        true).

(** The completion timer of a started transfer. *)
Definition simulateDMA_timer (transferSize : Z) (d : Dma) : Dma :=
  mkDma (channels d) (activeTransfers d - 1) (totalTransferred d + transferSize)
    (errors d).

(** A run of the DMA engine: calls, and completion timers firing in any
    order.  The state carries the sizes of the transfers whose timer is
    still to fire and the sizes of all transfers started so far. *)
Inductive DmaEvent :=
| DmaCall (transferSize : Z)
| DmaTimer (k : nat).

Record DmaRun := mkDmaRun {
  run_dma : Dma;
  run_pending : list Z;
  run_started : list Z
}.

Definition dma_step (dmaEnabled : bool) (r : DmaRun) (ev : DmaEvent) : DmaRun :=
  match ev with
  | DmaCall transferSize =>
      match simulateDMA dmaEnabled transferSize (run_dma r) with
      | (d, true) =>
          mkDmaRun d (run_pending r ++ [transferSize]) (run_started r ++ [transferSize])
      | (d, false) => mkDmaRun d (run_pending r) (run_started r)
      end
  | DmaTimer k =>
      match run_pending r !! k with
      | Some transferSize =>
          mkDmaRun (simulateDMA_timer transferSize (run_dma r))
            (delete k (run_pending r)) (run_started r)
      | None => r
      end
  end.

Definition dma_run (dmaEnabled : bool) (evs : list DmaEvent) : DmaRun :=
  fold_left (dma_step dmaEnabled) evs (mkDmaRun newDma [] []).

Definition sumZ (l : list Z) : Z := fold_right Z.add 0 l.

(** *** The memory map *)
Record MemoryMap := mkMemoryMap {
  kernel : Z;
  buffer : Z;
  stack : Z;
  heap : Z;
  free : Z
}.

(** [this.memoryMap] as the constructor sets it. *)
Definition newMemoryMap : MemoryMap :=
  mkMemoryMap 1048576 65536 131072 524288 2097152.

(** [getMemoryMap().total] *)
Definition getMemoryMap_total (m : MemoryMap) : Z :=
  fold_left Z.add [kernel m; buffer m; stack m; heap m; free m] 0.

(** [simulateMemoryLeak()] on [this.memoryMap], for the drawn [leakSize];
    the floating-point [systemLoad.memory] is left out. *)
Definition simulateMemoryLeak (leakSize : Z) (m : MemoryMap) : MemoryMap :=
  mkMemoryMap (kernel m) (buffer m) (stack m) (heap m + leakSize)
    (Z.max 0 (free m - leakSize)).

Definition simulateMemoryLeak_all (leakSizes : list Z) (m : MemoryMap) : MemoryMap :=
  fold_left (fun acc leakSize => simulateMemoryLeak leakSize acc) leakSizes m.

(** *** The application controller *)

(** How a handler of the controller ended: it returned before calling the
    driver, it showed the ['Invalid buffer size'] toast, or it awaited the
    driver's promise. *)
Inductive UiOutcome (A : Type) :=
| UiReturned
| UiInvalid
| UiAwaited (p : Promise A).
Arguments UiReturned {A}.
Arguments UiInvalid {A}.
Arguments UiAwaited {A} p.

(** [ioctlCommand(command)]: [answer] is what [prompt] returned, [None]
    for a cancelled dialog, and inside it what [parseInt] made of the
    text, [None] for NaN. *)
Definition ioctlCommand (command : string) (answer : option (option Z))
  (s : KernelSimulator) : KernelSimulator * UiOutcome IoctlResult :=
  if String.eqb command "SET_BUFFER_SIZE" then
    match answer with
    | None => (s, UiReturned)
    | Some None => (s, UiInvalid)
    | Some (Some arg) =>
        if arg <=? 0 then (s, UiInvalid)
        else let r := deviceIoctl command (Some arg) s in (fst r, UiAwaited (snd r))
    end
  else let r := deviceIoctl command None s in (fst r, UiAwaited (snd r)).

(** [toggleModule()] *)
Definition toggleModule (now : Z) (s : KernelSimulator) : KernelSimulator :=
  if moduleLoaded s then unloadModule s else loadModule now s.

(** [generateRandomData(size)]: [draws i] is the index
    [Math.floor(Math.random() * chars.length)] drawn in round [i]; [charAt]
    of an index outside the string is the empty string. *)
Definition chars : string :=
  "ABCDEFGHIJKLMNOPQRSTUVWXYZabcdefghijklmnopqrstuvwxyz0123456789".

Definition charAt (str : string) (i : Z) : string :=
  if i <? 0 then EmptyString
  else match String.get (Z.to_nat i) str with
       | Some c => String c EmptyString
       | None => EmptyString
       end.

Definition generateRandomData (draws : Z -> Z) (size : Z) : string :=
  for_loop size (fun i result => String.append result (charAt chars (draws i)))
    EmptyString.

(** One iteration of [runBenchmark]: the write is awaited, then the read;
    a rejected write skips the read.  The data written is the encoding of
    [generateRandomData(50)], plain ASCII. *)
Definition runBenchmark_iteration (s : KernelSimulator)
  (it : (Z -> Z) * Z * Z) : KernelSimulator :=
  match it with
  | (draws, now1, now2) =>
      let writeData := generateRandomData draws 50 in
      match deviceWrite (list_byte_of_string writeData) now1 s with
      | (s1, Resolved _) => fst (deviceRead 50 now2 s1)
      | (s1, _) => s1
      end
  end.

Definition runBenchmark (its : list ((Z -> Z) * Z * Z)) (s : KernelSimulator)
  : KernelSimulator :=
  fold_left runBenchmark_iteration its s.

(** * Proofs *)

Ltac exec_unfold :=
  cbv beta iota zeta delta
    [deviceOpen deviceWrite deviceWrite_timer deviceWrite_try deviceWrite_catch
     deviceWrite_finally deviceRead deviceRead_timer deviceRead_try
     deviceRead_catch deviceRead_finally deviceIoctl deviceIoctl_timer
     deviceIoctl_try deviceIoctl_catch resizeBuffer acquireMutex releaseMutex
     u8_alloc bind ret throw modify get_this try_catch try_finally settled].

(** Turn the boolean tests of the code into arithmetic facts. *)
Ltac reflect_tests :=
  repeat match goal with
  | H : (_ =? _) = true |- _ => apply Z.eqb_eq in H
  | H : (_ =? _) = false |- _ => apply Z.eqb_neq in H
  | H : (_ <? _) = true |- _ => apply Z.ltb_lt in H
  | H : (_ <? _) = false |- _ => apply Z.ltb_ge in H
  | H : (_ >? _) = true |- _ => rewrite Z.gtb_ltb in H; apply Z.ltb_lt in H
  | H : (_ >? _) = false |- _ => rewrite Z.gtb_ltb in H; apply Z.ltb_ge in H
  | H : negb _ = true |- _ => apply negb_true_iff in H
  | H : negb _ = false |- _ => apply negb_false_iff in H
  end.

(** ** The mutex *)

Lemma acquireMutex_busy (now : Z) (s : KernelSimulator) :
  mutex s = true ->
  acquireMutex now s = (set_waitQueue (waitQueue s ++ [now]) s, Throw ResourceBusy).
Proof. intros H. exec_unfold. rewrite H. reflexivity. Qed.

Lemma acquireMutex_free (now : Z) (s : KernelSimulator) :
  mutex s = false -> acquireMutex now s = (set_mutex true s, Normal tt).
Proof. intros H. exec_unfold. rewrite H. reflexivity. Qed.

Lemma len_snoc_pos {A : Type} (l : list A) (x : A) : (0 <? len (l ++ [x])) = true.
Proof. unfold len. rewrite length_app. simpl. apply Z.ltb_lt. lia. Qed.

Lemma releaseMutex_eq (s : KernelSimulator) :
  releaseMutex s = (set_waitQueue (tail (waitQueue s)) (set_mutex false s), Normal tt).
Proof.
  exec_unfold. destruct s as [ml bv bs bu bp st ar aw wq mx cf].
  destruct wq; reflexivity.
Qed.

(** ** The operations, path by path *)

Lemma deviceOpen_eq (s : KernelSimulator) :
  deviceOpen s =
    if moduleLoaded s then (set_stats (incr_openCount (stats s)) s, Normal tt)
    else (s, Throw NoSuchDevice).
Proof. exec_unfold. destruct (moduleLoaded s); reflexivity. Qed.

(** A write callback that finds the mutex taken. *)
Lemma deviceWrite_timer_busy (dataBytes : list byte) (now : Z) (s : KernelSimulator) :
  mutex s = true ->
  deviceWrite_timer dataBytes now s = (after_busy_write now s, Rejected ResourceBusy).
Proof.
  intros H. exec_unfold. rewrite H. simpl.
  rewrite len_snoc_pos. reflexivity.
Qed.

Lemma deviceRead_timer_busy (count : Z) (now : Z) (s : KernelSimulator) :
  mutex s = true ->
  deviceRead_timer count now s = (after_busy_read now s, Rejected ResourceBusy).
Proof.
  intros H. exec_unfold. rewrite H. simpl.
  rewrite len_snoc_pos. reflexivity.
Qed.

Lemma deviceWrite_timer_free (dataBytes : list byte) (now : Z) (s : KernelSimulator) :
  mutex s = false ->
  deviceWrite_timer dataBytes now s =
    let n := Z.min (len dataBytes) (bufferSize s - bufferUsed s) in
    if n =? 0 then
      (mkKernel (moduleLoaded s) (bufferView s) (bufferSize s) (bufferUsed s)
         (bufferPosition s) (stats s) (activeReaders s)
         (activeWriters s + 1 - 1) (tail (waitQueue s)) false (config s),
       Rejected BufferFull)
    else
      (mkKernel (moduleLoaded s) (written_view s dataBytes n) (bufferSize s)
         (bufferUsed s + n) (js_rem (bufferPosition s + n) (bufferSize s))
         (add_bytesWritten n (stats s)) (activeReaders s)
         (activeWriters s + 1 - 1) (tail (waitQueue s)) false (config s),
       Resolved (mkWriteResult n)).
Proof.
  intros H. unfold deviceWrite_timer, deviceWrite_finally, try_finally, try_catch.
  unfold deviceWrite_try, bind at 1 2. rewrite (acquireMutex_free _ _ H).
  cbv beta iota zeta delta [bind modify get_this ret]. simpl.
  destruct (Z.min (len dataBytes) (bufferSize s - bufferUsed s) =? 0);
    simpl; rewrite releaseMutex_eq; reflexivity.
Qed.

Lemma deviceRead_timer_free (count : Z) (now : Z) (s : KernelSimulator) :
  mutex s = false ->
  deviceRead_timer count now s =
    let n := Z.min count (bufferUsed s) in
    if n =? 0 then
      (mkKernel (moduleLoaded s) (bufferView s) (bufferSize s) (bufferUsed s)
         (bufferPosition s) (stats s) (activeReaders s + 1 - 1)
         (activeWriters s) (tail (waitQueue s)) false (config s),
       Resolved (mkReadResult [] 0))
    else if n <? 0 then
      (mkKernel (moduleLoaded s) (bufferView s) (bufferSize s) (bufferUsed s)
         (bufferPosition s) (incr_errorCount (stats s)) (activeReaders s + 1 - 1)
         (activeWriters s) (tail (waitQueue s)) false (config s),
       Rejected RangeError)
    else
      (mkKernel (moduleLoaded s) (bufferView s) (bufferSize s) (bufferUsed s - n)
         (bufferPosition s) (add_bytesRead n (stats s)) (activeReaders s + 1 - 1)
         (activeWriters s) (tail (waitQueue s)) false (config s),
       Resolved (mkReadResult (TextDecoder_decode (read_bytes s n)) n)).
Proof.
  intros H. unfold deviceRead_timer, deviceRead_finally, try_finally, try_catch.
  unfold deviceRead_try, bind at 1 2. rewrite (acquireMutex_free _ _ H).
  cbv beta iota zeta delta [bind modify get_this ret throw u8_alloc deviceRead_catch].
  simpl.
  destruct (Z.min count (bufferUsed s) =? 0); simpl.
  - rewrite releaseMutex_eq. reflexivity.
  - destruct (Z.min count (bufferUsed s) <? 0); simpl;
      rewrite releaseMutex_eq; reflexivity.
Qed.

Lemma deviceWrite_timer_eq (dataBytes : list byte) (now : Z) (s : KernelSimulator) :
  deviceWrite_timer dataBytes now s =
    if mutex s then (after_busy_write now s, Rejected ResourceBusy)
    else
      let n := Z.min (len dataBytes) (bufferSize s - bufferUsed s) in
      if n =? 0 then
        (mkKernel (moduleLoaded s) (bufferView s) (bufferSize s) (bufferUsed s)
           (bufferPosition s) (stats s) (activeReaders s)
           (activeWriters s + 1 - 1) (tail (waitQueue s)) false (config s),
         Rejected BufferFull)
      else
        (mkKernel (moduleLoaded s) (written_view s dataBytes n) (bufferSize s)
           (bufferUsed s + n) (js_rem (bufferPosition s + n) (bufferSize s))
           (add_bytesWritten n (stats s)) (activeReaders s)
           (activeWriters s + 1 - 1) (tail (waitQueue s)) false (config s),
         Resolved (mkWriteResult n)).
Proof.
  destruct (mutex s) eqn:Hm.
  - apply deviceWrite_timer_busy, Hm.
  - apply deviceWrite_timer_free, Hm.
Qed.

Lemma deviceRead_timer_eq (count : Z) (now : Z) (s : KernelSimulator) :
  deviceRead_timer count now s =
    if mutex s then (after_busy_read now s, Rejected ResourceBusy)
    else
      let n := Z.min count (bufferUsed s) in
      if n =? 0 then
        (mkKernel (moduleLoaded s) (bufferView s) (bufferSize s) (bufferUsed s)
           (bufferPosition s) (stats s) (activeReaders s + 1 - 1)
           (activeWriters s) (tail (waitQueue s)) false (config s),
         Resolved (mkReadResult [] 0))
      else if n <? 0 then
        (mkKernel (moduleLoaded s) (bufferView s) (bufferSize s) (bufferUsed s)
           (bufferPosition s) (incr_errorCount (stats s)) (activeReaders s + 1 - 1)
           (activeWriters s) (tail (waitQueue s)) false (config s),
         Rejected RangeError)
      else
        (mkKernel (moduleLoaded s) (bufferView s) (bufferSize s) (bufferUsed s - n)
           (bufferPosition s) (add_bytesRead n (stats s)) (activeReaders s + 1 - 1)
           (activeWriters s) (tail (waitQueue s)) false (config s),
         Resolved (mkReadResult (TextDecoder_decode (read_bytes s n)) n)).
Proof.
  destruct (mutex s) eqn:Hm.
  - apply deviceRead_timer_busy, Hm.
  - apply deviceRead_timer_free, Hm.
Qed.

Lemma deviceIoctl_timer_eq (cmd : string) (arg : option Z) (s : KernelSimulator) :
  deviceIoctl_timer cmd arg s =
    let counted := incr_ioctlCount (stats s) in
    if String.eqb cmd "CLEAR_BUFFER" then
      (mkKernel (moduleLoaded s) (map (fun _ => x00) (bufferView s)) (bufferSize s)
         0 0 counted (activeReaders s) (activeWriters s) (waitQueue s) (mutex s)
         (config s),
       Resolved BufferCleared)
    else if String.eqb cmd "SET_BUFFER_SIZE" then
      let newSize := js_or arg 2048 in
      if newSize >? maxBufferSize (config s) then
        (set_stats (incr_errorCount counted) s, Rejected BufferSizeExceedsMax)
      else if newSize <? 0 then
        (set_stats (incr_errorCount counted) s, Rejected RangeError)
      else
        (mkKernel (moduleLoaded s) (resized_view s newSize) newSize
           (Z.min (bufferUsed s) newSize) (Z.min (bufferPosition s) newSize)
           counted (activeReaders s) (activeWriters s) (waitQueue s) (mutex s)
           (config s),
         Resolved (BufferSizeSet newSize))
    else if String.eqb cmd "ENABLE_LOGGING" then
      (mkKernel (moduleLoaded s) (bufferView s) (bufferSize s) (bufferUsed s)
         (bufferPosition s) counted (activeReaders s) (activeWriters s)
         (waitQueue s) (mutex s)
         (mkConfig (negb (loggingEnabled (config s))) (maxBufferSize (config s))),
       Resolved (LoggingToggled (negb (loggingEnabled (config s)))))
    else
      (set_stats (incr_errorCount counted) s, Rejected InvalidIoctl).
Proof.
  exec_unfold. simpl.
  destruct (String.eqb cmd "CLEAR_BUFFER"); [reflexivity|].
  destruct (String.eqb cmd "SET_BUFFER_SIZE").
  - simpl. destruct (js_or arg 2048 >? maxBufferSize (config s)); [reflexivity|].
    destruct (js_or arg 2048 <? 0); reflexivity.
  - destruct (String.eqb cmd "ENABLE_LOGGING"); reflexivity.
Qed.

(** Split a goal about [run op s] into the paths of the code. *)
Ltac run_paths op :=
  destruct op; cbn [run fst snd];
  unfold deviceWrite, deviceRead, deviceIoctl;
  rewrite ?deviceOpen_eq, ?deviceWrite_timer_eq, ?deviceRead_timer_eq,
    ?deviceIoctl_timer_eq;
  cbv zeta;
  repeat match goal with
  | |- context [if ?b then _ else _] => destruct b eqn:?
  end;
  reflect_tests; unfold len in *; simpl.

(** Every step settles its promise. *)
Lemma run_settles (op : Op) (s : KernelSimulator) : snd (run op s) <> Unsettled.
Proof. run_paths op; discriminate. Qed.

Lemma js_or_nonzero (arg : option Z) (dflt : Z) : dflt <> 0 -> js_or arg dflt <> 0.
Proof.
  intros Hd. unfold js_or. destruct arg as [n|]; [|exact Hd].
  destruct (n =? 0) eqn:E; [exact Hd | apply Z.eqb_neq, E].
Qed.

(** ** Operations on an unloaded module *)

Lemma unloaded_rejects (s : KernelSimulator) :
  moduleLoaded s = false ->
  deviceOpen s = (s, Throw NoSuchDevice) /\
  (forall dataBytes now, deviceWrite dataBytes now s = (s, Rejected NoSuchDevice)) /\
  (forall count now, deviceRead count now s = (s, Rejected NoSuchDevice)) /\
  (forall cmd arg, deviceIoctl cmd arg s = (s, Rejected NoSuchDevice)).
Proof.
  intros H. rewrite deviceOpen_eq. unfold deviceWrite, deviceRead, deviceIoctl.
  rewrite H. simpl. repeat split; reflexivity.
Qed.

(** ** How one step changes the statistics *)

Lemma run_stats (op : Op) (s : KernelSimulator) :
  let s' := fst (run op s) in
  match snd (run op s) with
  | Failed NoSuchDevice => s' = s
  | Failed BufferFull => stats s' = stats s
  | Failed _ =>
      stats s' = incr_errorCount (stats s) \/
      stats s' = incr_errorCount (incr_ioctlCount (stats s))
  | Opened => stats s' = incr_openCount (stats s)
  | Wrote r => stats s' = add_bytesWritten (res_bytesWritten r) (stats s)
  | ReadBack r =>
      stats s' = add_bytesRead (res_bytesRead r) (stats s) \/
      (res_bytesRead r = 0 /\ stats s' = stats s)
  | Controlled _ => stats s' = incr_ioctlCount (stats s)
  | Returned => counters_eq (stats s) (stats s')
  | Unsettled => False
  end.
Proof.
  run_paths op; unfold counters_eq; simpl;
    first [reflexivity | left; reflexivity | right; split; reflexivity
          | right; reflexivity | repeat split].
Qed.

(** C3 (as amended): a step that fails with ['Resource busy'], with
    ['Buffer size exceeds maximum allowed'], with ['Invalid IOCTL command']
    or with an allocation [RangeError] has raised [stats.errorCount] by
    exactly one when its promise is rejected; a call refused with
    ['No such device'] leaves the whole driver object as it was; a
    successful write raises [stats.bytesWritten], and a successful read
    raises [stats.bytesRead], by exactly the count it returns. *)
Theorem error_and_byte_counters (op : Op) (s : KernelSimulator) :
  let s' := fst (run op s) in
  (forall e, snd (run op s) = Failed e ->
     e = ResourceBusy \/ e = BufferSizeExceedsMax \/ e = InvalidIoctl \/ e = RangeError ->
     errorCount (stats s') = errorCount (stats s) + 1) /\
  (snd (run op s) = Failed NoSuchDevice -> s' = s) /\
  (forall r, snd (run op s) = Wrote r ->
     bytesWritten (stats s') = bytesWritten (stats s) + res_bytesWritten r) /\
  (forall r, snd (run op s) = ReadBack r ->
     bytesRead (stats s') = bytesRead (stats s) + res_bytesRead r).
Proof.
  intros s'. pose proof (run_stats op s) as H. fold s' in H.
  repeat split.
  - intros e He Hk. rewrite He in H.
    destruct Hk as [->|[->|[->| ->]]]; destruct H as [-> | ->]; reflexivity.
  - intros He. rewrite He in H. exact H.
  - intros r Hr. rewrite Hr in H. rewrite H. reflexivity.
  - intros r Hr. rewrite Hr in H. destruct H as [-> | [H0 ->]]; simpl; lia.
Qed.

Lemma error_and_byte_counters_witness :
  snd (run (OpIoctl "FORMAT_DISK" None) (newKernelSimulator 0)) = Failed InvalidIoctl /\
  errorCount (stats (fst (run (OpIoctl "FORMAT_DISK" None) (newKernelSimulator 0)))) =
    errorCount (stats (newKernelSimulator 0)) + 1.
Proof.
  split; [reflexivity|].
  apply (proj1 (error_and_byte_counters (OpIoctl "FORMAT_DISK" None)
                  (newKernelSimulator 0)) InvalidIoctl).
  - reflexivity.
  - right. right. left. reflexivity.
Defined.

(** C3 (as stated) fails: a write on an unloaded module is refused with
    ['No such device'] and [stats.errorCount] stays at zero. *)
Lemma not_loaded_error_is_not_counted :
  let s := unloadModule (newKernelSimulator 0) in
  snd (run (OpWrite (bytes "data") 1) s) = Failed NoSuchDevice /\
  errorCount (stats s) = 0 /\
  errorCount (stats (fst (run (OpWrite (bytes "data") 1) s))) = 0 /\
  errorCount (stats (fst (run (OpWrite (bytes "data") 1) s))) <> errorCount (stats s) + 1.
Proof. vm_compute. repeat split; discriminate. Qed.

(** ** The active counters and the mutex *)

(** When the mutex is free on entry, a write or a read leaves both
    counters at their entry value and the mutex free. *)
Lemma acquired_call_balances (op : Op) (s : KernelSimulator) :
  mutex s = false -> is_data_op op = true ->
  activeReaders (fst (run op s)) = activeReaders s /\
  activeWriters (fst (run op s)) = activeWriters s /\
  mutex (fst (run op s)) = false.
Proof.
  intros Hm Hop. destruct op; try discriminate; cbn [run fst snd];
    unfold deviceWrite, deviceRead;
    rewrite ?deviceWrite_timer_eq, ?deviceRead_timer_eq, Hm; cbv zeta;
    repeat match goal with
    | |- context [if ?b then _ else _] => destruct b eqn:?
    end; simpl; repeat split; auto; lia.
Qed.

(** Between steps nothing holds the mutex: [idle] is kept by every step,
    so a run that starts idle never takes the ['Resource busy'] path. *)
Lemma run_idle (op : Op) (s : KernelSimulator) : idle s -> idle (fst (run op s)).
Proof.
  intros (Hm & Hr & Hw). unfold idle.
  destruct op; cbn [run fst snd];
    unfold deviceWrite, deviceRead, deviceIoctl;
    rewrite ?deviceOpen_eq, ?deviceWrite_timer_eq, ?deviceRead_timer_eq,
      ?deviceIoctl_timer_eq, ?Hm; cbv zeta;
    repeat match goal with
    | |- context [if ?b then _ else _] => destruct b eqn:?
    end; simpl; repeat split; auto; lia.
Qed.

Lemma run_all_idle (ops : list Op) (s : KernelSimulator) :
  idle s -> idle (run_all ops s).
Proof.
  revert s. induction ops as [|op ops IH]; intros s Hs; simpl.
  - exact Hs.
  - apply IH, run_idle, Hs.
Qed.

Lemma newKernelSimulator_idle (now : Z) : idle (newKernelSimulator now).
Proof. repeat split. Qed.

(** A step that finds the mutex free does not fail with ['Resource
    busy']. *)
Lemma run_busy_needs_mutex (op : Op) (s : KernelSimulator) :
  mutex s = false -> snd (run op s) <> Failed ResourceBusy.
Proof.
  intros Hm. destruct op; cbn [run fst snd];
    unfold deviceWrite, deviceRead, deviceIoctl;
    rewrite ?deviceOpen_eq, ?deviceWrite_timer_eq, ?deviceRead_timer_eq,
      ?deviceIoctl_timer_eq, ?Hm; cbv zeta;
    repeat match goal with
    | |- context [if ?b then _ else _] => destruct b eqn:?
    end; simpl; discriminate.
Qed.






(** For instance: a write, a read of more than there is, a write that
    finds the buffer full and a read with a negative count all take a
    counter from 0 to 1 and back to 0; a write on an unloaded module takes
    none anywhere. *)
Lemma active_counters_along_steps :
  let s := newKernelSimulator 0 in
  let full := run_all [OpIoctl "SET_BUFFER_SIZE" (Some 2); OpWrite (bytes "ab") 1] s in
  map activeWriters (instants (OpWrite (bytes "abc") 1) s) = [0; 0; 1; 1; 0; 0] /\
  map activeReaders (instants (OpRead 9 2) s) = [0; 0; 1; 1; 0; 0] /\
  snd (run (OpWrite (bytes "c") 2) full) = Failed BufferFull /\
  map activeWriters (instants (OpWrite (bytes "c") 2) full) = [0; 0; 1; 1; 0; 0] /\
  snd (run (OpRead (-1) 3) full) = Failed RangeError /\
  map activeReaders (instants (OpRead (-1) 3) full) = [0; 0; 1; 1; 0; 0] /\
  snd (run (OpWrite (bytes "c") 4) (unloadModule full)) = Failed NoSuchDevice /\
  map activeWriters (instants (OpWrite (bytes "c") 4) (unloadModule full)) = [0].
Proof. vm_compute. repeat split. Qed.

(** C5: a write or read that is called on a loaded module while the mutex
    flag is set fails with ['Resource busy'] after [acquireMutex] has
    pushed its timestamp on the wait queue; its [finally] block still runs,
    so the active counter ends one below its entry value, the mutex flag
    ends cleared although this call never held it, and [releaseMutex]
    drops the oldest entry of the wait queue. *)
Theorem busy_call_still_runs_cleanup
  (s : KernelSimulator) (dataBytes : list byte) (count now : Z) :
  moduleLoaded s = true -> mutex s = true ->
  acquireMutex now s = (set_waitQueue (waitQueue s ++ [now]) s, Throw ResourceBusy) /\
  (snd (deviceWrite dataBytes now s) = Rejected ResourceBusy /\
   activeWriters (fst (deviceWrite dataBytes now s)) = activeWriters s - 1 /\
   mutex (fst (deviceWrite dataBytes now s)) = false /\
   waitQueue (fst (deviceWrite dataBytes now s)) = tail (waitQueue s ++ [now])) /\
  (snd (deviceRead count now s) = Rejected ResourceBusy /\
   activeReaders (fst (deviceRead count now s)) = activeReaders s - 1 /\
   mutex (fst (deviceRead count now s)) = false /\
   waitQueue (fst (deviceRead count now s)) = tail (waitQueue s ++ [now])).
Proof.
  intros Hl Hm. split; [apply acquireMutex_busy, Hm|].
  unfold deviceWrite, deviceRead. rewrite Hl. simpl.
  rewrite deviceWrite_timer_busy, deviceRead_timer_busy by assumption.
  simpl. repeat split.
Qed.

Lemma busy_call_still_runs_cleanup_witness :
  let s := set_mutex true (newKernelSimulator 0) in
  moduleLoaded s = true /\ mutex s = true /\
  (acquireMutex 7 s = (set_waitQueue (waitQueue s ++ [7]) s, Throw ResourceBusy) /\
   (snd (deviceWrite (bytes "a") 7 s) = Rejected ResourceBusy /\
    activeWriters (fst (deviceWrite (bytes "a") 7 s)) = activeWriters s - 1 /\
    mutex (fst (deviceWrite (bytes "a") 7 s)) = false /\
    waitQueue (fst (deviceWrite (bytes "a") 7 s)) = tail (waitQueue s ++ [7])) /\
   (snd (deviceRead 1 7 s) = Rejected ResourceBusy /\
    activeReaders (fst (deviceRead 1 7 s)) = activeReaders s - 1 /\
    mutex (fst (deviceRead 1 7 s)) = false /\
    waitQueue (fst (deviceRead 1 7 s)) = tail (waitQueue s ++ [7]))).
Proof.
  intros s. split; [reflexivity|]. split; [reflexivity|].
  apply (busy_call_still_runs_cleanup s (bytes "a") 1 7); reflexivity.
Defined.

(** ** The copy loops *)

Lemma for_loop_succ {S : Type} (k : nat) (body : Z -> S -> S) (s : S) :
  for_loop (Z.of_nat (Datatypes.S k)) body s =
  body (Z.of_nat k) (for_loop (Z.of_nat k) body s).
Proof.
  unfold for_loop. rewrite !Nat2Z.id, seq_S, fold_left_app. reflexivity.
Qed.

Lemma for_loop_zero {S : Type} (body : Z -> S -> S) (s : S) :
  for_loop 0 body s = s.
Proof. reflexivity. Qed.

Lemma u8_set_length (a : list byte) (i : Z) (v : byte) :
  length (u8_set a i v) = length a.
Proof. unfold u8_set. destruct (i <? 0); [reflexivity | apply length_insert]. Qed.

Lemma copy_loop_length (f : Z -> Z) (g : Z -> byte) (n : Z) (a : list byte) :
  length (for_loop n (fun i view => u8_set view (f i) (g i)) a) = length a.
Proof.
  unfold for_loop. generalize (seq 0 (Z.to_nat n)). intros l. revert a.
  induction l as [|i l IH]; intros a; simpl; [reflexivity|].
  rewrite IH. apply u8_set_length.
Qed.

(** The write loop, cell by cell: inside the array, the cells from [p] up
    to [p + k] hold the data and every other cell is untouched. *)
Lemma write_loop_lookup (a dataBytes : list byte) (p : Z) (k j : nat) :
  0 <= p -> (j < length a)%nat ->
  for_loop (Z.of_nat k)
    (fun i view => u8_set view (p + i) (u8_get dataBytes i)) a !! j =
  if decide (p <= Z.of_nat j < p + Z.of_nat k)
  then Some (u8_get dataBytes (Z.of_nat j - p))
  else a !! j.
Proof.
  intros Hp Hj. induction k as [|k IH].
  - rewrite for_loop_zero. destruct (decide _) as [H|H]; [lia | reflexivity].
  - rewrite for_loop_succ. unfold u8_set at 1.
    destruct (p + Z.of_nat k <? 0) eqn:E; [apply Z.ltb_lt in E; lia|].
    destruct (decide (Z.to_nat (p + Z.of_nat k) = j)) as [Heq|Hne].
    + subst j. rewrite list_lookup_insert_eq
        by (rewrite (copy_loop_length (fun i => p + i)); exact Hj).
      clear IH. destruct (decide _) as [H|H]; [|lia].
      f_equal. f_equal. lia.
    + rewrite list_lookup_insert_ne by exact Hne. rewrite IH.
      destruct (decide _) as [H|H]; destruct (decide _) as [H'|H'];
        try reflexivity; lia.
Qed.

(** The read loop fills a fresh array with the bytes it fetches. *)
Lemma read_loop_map (g : Z -> byte) (k m : nat) :
  (k <= m)%nat ->
  for_loop (Z.of_nat k) (fun i rb => u8_set rb i (g i)) (replicate m x00) =
  map (fun i => g (Z.of_nat i)) (seq 0 k) ++ replicate (m - k) x00.
Proof.
  induction k as [|k IH]; intros Hk.
  - rewrite for_loop_zero. simpl. rewrite Nat.sub_0_r. reflexivity.
  - rewrite for_loop_succ, IH by lia. unfold u8_set.
    destruct (Z.of_nat k <? 0) eqn:E; [apply Z.ltb_lt in E; lia|].
    rewrite Nat2Z.id, seq_S, map_app. simpl.
    replace (m - k)%nat with (Datatypes.S (m - Datatypes.S k)) by lia.
    simpl. rewrite <- app_assoc. simpl.
    rewrite insert_app_r_alt by (rewrite length_map, length_seq; lia).
    rewrite length_map, length_seq, Nat.sub_diag. reflexivity.
Qed.

(** What [deviceRead] returns is the window that starts at
    [max 0 (bufferPosition - bufferUsed)]. *)
Lemma read_bytes_window (s : KernelSimulator) (n : Z) :
  0 <= n -> read_bytes s n = read_window s n.
Proof.
  intros Hn. unfold read_bytes, read_window, u8_new.
  rewrite <- (Z2Nat.id n) at 1 by exact Hn.
  rewrite (read_loop_map
    (fun i => u8_get (bufferView s)
       (js_rem (Z.max 0 (bufferPosition s - bufferUsed s) + i) (bufferSize s))))
    by lia.
  rewrite Nat.sub_diag. simpl. apply app_nil_r.
Qed.

Lemma u8_get_all (a : list byte) :
  map (fun i => u8_get a (Z.of_nat i)) (seq 0 (length a)) = a.
Proof.
  apply list_eq. intros j. rewrite list_lookup_fmap.
  destruct (decide (j < length a)%nat) as [H|H].
  - rewrite lookup_seq_lt by exact H. simpl. unfold u8_get.
    destruct (Z.of_nat j <? 0) eqn:E; [apply Z.ltb_lt in E; lia|].
    rewrite Nat2Z.id. destruct (lookup_lt_is_Some_2 a j H) as [x Hx].
    rewrite Hx. reflexivity.
  - rewrite lookup_seq_ge by lia. simpl. symmetry. apply lookup_ge_None. lia.
Qed.

Lemma written_view_len (s : KernelSimulator) (dataBytes : list byte) (n : Z) :
  len (written_view s dataBytes n) = len (bufferView s).
Proof.
  unfold len, written_view.
  rewrite (copy_loop_length (fun i => bufferPosition s + i)). reflexivity.
Qed.

Lemma resized_view_len (s : KernelSimulator) (newSize : Z) :
  0 <= newSize -> len (resized_view s newSize) = newSize.
Proof.
  intros H. unfold len, resized_view, u8_new.
  rewrite (copy_loop_length (fun i => i)), length_replicate. lia.
Qed.

(** ** The capacity invariant *)

Lemma run_used_in_bounds (op : Op) (s : KernelSimulator) :
  used_in_bounds s -> used_in_bounds (fst (run op s)).
Proof. unfold used_in_bounds. intros Hu. run_paths op; lia. Qed.

Lemma run_all_used_in_bounds (ops : list Op) (s : KernelSimulator) :
  used_in_bounds s -> used_in_bounds (run_all ops s).
Proof.
  revert s. induction ops as [|op ops IH]; intros s Hs; simpl.
  - exact Hs.
  - apply IH, run_used_in_bounds, Hs.
Qed.

Lemma states_after_used_in_bounds (ops : list Op) (s : KernelSimulator) :
  used_in_bounds s -> Forall used_in_bounds (states_after ops s).
Proof.
  revert s. induction ops as [|op ops IH]; intros s Hs; simpl.
  - constructor.
  - constructor.
    + apply run_used_in_bounds, Hs.
    + apply IH, run_used_in_bounds, Hs.
Qed.

Lemma newKernelSimulator_used_in_bounds (now : Z) :
  used_in_bounds (newKernelSimulator now).
Proof. unfold used_in_bounds. simpl. lia. Qed.

(** C8: starting from a freshly constructed driver, after every step of
    every sequence of steps (write and read calls, and just as well opens,
    ioctls, loads, unloads and late timer callbacks)
    [0 <= bufferUsed <= bufferSize] holds. *)
Theorem capacity_invariant (now : Z) (ops : list Op) :
  Forall (fun s => 0 <= bufferUsed s <= bufferSize s)
    (states_after ops (newKernelSimulator now)).
Proof.
  apply (states_after_used_in_bounds ops), newKernelSimulator_used_in_bounds.
Qed.

(** The whole shape of the buffer is kept as well: the storage is as long
    as [bufferSize], which is positive, and the cursor stays within it. *)
Lemma run_buffer_wf (op : Op) (s : KernelSimulator) :
  buffer_wf s -> buffer_wf (fst (run op s)).
Proof.
  unfold buffer_wf. intros (Hs & Hl & Hu & Hp).
  assert (forall n, 0 <= n ->
            0 <= js_rem (bufferPosition s + n) (bufferSize s) <= bufferSize s) as Hrem.
  { intros n Hn. unfold js_rem.
    pose proof (Z.rem_bound_pos (bufferPosition s + n) (bufferSize s)). lia. }
  destruct op; cbn [run fst snd];
    unfold deviceWrite, deviceRead, deviceIoctl;
    rewrite ?deviceOpen_eq, ?deviceWrite_timer_eq, ?deviceRead_timer_eq,
      ?deviceIoctl_timer_eq; cbv zeta;
    repeat match goal with
    | |- context [if ?b then _ else _] => destruct b eqn:?
    end; reflect_tests; simpl;
    rewrite ?written_view_len, ?resized_view_len by assumption;
    try (unfold len; rewrite length_map; fold (len (bufferView s)));
    try (pose proof (js_or_nonzero arg 2048));
    try (pose proof (Hrem (Z.min (len dataBytes) (bufferSize s - bufferUsed s))));
    unfold len in *; lia.
Qed.

Lemma run_all_buffer_wf (ops : list Op) (s : KernelSimulator) :
  buffer_wf s -> buffer_wf (run_all ops s).
Proof.
  revert s. induction ops as [|op ops IH]; intros s Hs; simpl.
  - exact Hs.
  - apply IH, run_buffer_wf, Hs.
Qed.

Lemma newKernelSimulator_buffer_wf (now : Z) : buffer_wf (newKernelSimulator now).
Proof. unfold buffer_wf. simpl. repeat split; try lia; discriminate. Qed.

(** ** The statistics counters *)

Lemma counters_le_refl (t : Stats) : counters_le t t.
Proof. unfold counters_le. lia. Qed.

Lemma counters_le_trans (t1 t2 t3 : Stats) :
  counters_le t1 t2 -> counters_le t2 t3 -> counters_le t1 t3.
Proof. unfold counters_le. lia. Qed.

Lemma run_counters_le (op : Op) (s : KernelSimulator) :
  bufferUsed s <= bufferSize s -> counters_le (stats s) (stats (fst (run op s))).
Proof. intros Hu. unfold counters_le. run_paths op; lia. Qed.

Lemma run_all_counters_le (ops : list Op) (s : KernelSimulator) :
  used_in_bounds s -> counters_le (stats s) (stats (run_all ops s)).
Proof.
  revert s. induction ops as [|op ops IH]; intros s Hs; simpl.
  - apply counters_le_refl.
  - eapply counters_le_trans.
    + apply (run_counters_le op). apply Hs.
    + apply IH, run_used_in_bounds, Hs.
Qed.

(** C9 (as amended): along every sequence of steps made on a freshly
    constructed driver, whether the module is loaded or not, none of
    [bytesRead], [bytesWritten], [openCount], [ioctlCount], [errorCount]
    ever decreases; [loadModule] keeps all five and replaces only
    [stats.startTime]. *)
Theorem counters_never_decrease (now0 now : Z) (ops more : list Op) :
  let s := run_all ops (newKernelSimulator now0) in
  counters_le (stats s) (stats (run_all more s)) /\
  counters_eq (stats s) (stats (loadModule now s)) /\
  startTime (stats (loadModule now s)) = now /\
  moduleLoaded (loadModule now s) = true.
Proof.
  intros s. split.
  - apply run_all_counters_le. apply run_all_used_in_bounds.
    apply newKernelSimulator_used_in_bounds.
  - repeat split.
Qed.

(** C9 (as stated) fails: after an open, an unload and a re-load the
    counter [openCount] is still 1; [loadModule] has not reset it. *)
Lemma load_keeps_the_counters :
  let s := run_all [OpOpen; OpUnload] (newKernelSimulator 0) in
  openCount (stats s) = 1 /\
  moduleLoaded s = false /\
  openCount (stats (loadModule 9 s)) = 1 /\
  openCount (stats (loadModule 9 s)) <> openCount (stats (newKernelSimulator 9)).
Proof. vm_compute. repeat split; discriminate. Qed.

(** ** The module gate *)

(** C10 (as amended): while [moduleLoaded] is false, open, read, write and
    ioctl are all refused with ['No such device'] and return the driver
    object unchanged; [loadModule] sets [moduleLoaded], and after it a
    write of at least one byte, with room in the buffer and the mutex
    free, succeeds. *)
Theorem unloaded_gate_and_reload
  (s : KernelSimulator) (dataBytes : list byte) (count now now' : Z)
  (cmd : string) (arg : option Z) :
  moduleLoaded s = false ->
  (run OpOpen s = (s, Failed NoSuchDevice) /\
   run (OpWrite dataBytes now) s = (s, Failed NoSuchDevice) /\
   run (OpRead count now) s = (s, Failed NoSuchDevice) /\
   run (OpIoctl cmd arg) s = (s, Failed NoSuchDevice)) /\
  moduleLoaded (loadModule now' s) = true /\
  (dataBytes <> [] -> bufferUsed s < bufferSize s -> mutex s = false ->
   snd (run (OpWrite dataBytes now) (loadModule now' s)) =
     Wrote (mkWriteResult (Z.min (len dataBytes) (bufferSize s - bufferUsed s))) /\
   0 < Z.min (len dataBytes) (bufferSize s - bufferUsed s)).
Proof.
  intros Hl. destruct (unloaded_rejects s Hl) as (Ho & Hw & Hr & Hi).
  split; [|split].
  - simpl. rewrite Ho, Hw, Hr, Hi. simpl. repeat split.
  - reflexivity.
  - intros Hd Hroom Hm.
    assert (0 < len dataBytes) as Hlen.
    { unfold len. destruct dataBytes; [congruence | simpl; lia]. }
    simpl. unfold deviceWrite. simpl.
    rewrite deviceWrite_timer_free by exact Hm. simpl.
    destruct (_ =? 0) eqn:E.
    + apply Z.eqb_eq in E. lia.
    + simpl. split; [reflexivity | lia].
Qed.

Lemma unloaded_gate_and_reload_witness :
  let s := unloadModule (newKernelSimulator 0) in
  moduleLoaded s = false /\
  bytes "hello" <> [] /\ bufferUsed s < bufferSize s /\ mutex s = false /\
  run (OpWrite (bytes "hello") 1) s = (s, Failed NoSuchDevice) /\
  snd (run (OpWrite (bytes "hello") 1) (loadModule 2 s)) = Wrote (mkWriteResult 5).
Proof.
  intros s.
  pose proof (unloaded_gate_and_reload s (bytes "hello") 1 1 2 "CLEAR_BUFFER" None
                eq_refl) as (Hgate & _ & Hwrite).
  split; [reflexivity|]. split; [discriminate|].
  split; [reflexivity|]. split; [reflexivity|].
  split; [apply Hgate|].
  apply Hwrite; [discriminate | reflexivity | reflexivity].
Defined.

(** C10 (as stated) fails: after unload and load, a write of the empty
    string is rejected with ['Buffer full'] although the whole buffer is
    free. *)
Lemma empty_write_after_reload_is_rejected :
  let s := loadModule 2 (unloadModule (newKernelSimulator 0)) in
  moduleLoaded s = true /\ bufferUsed s = 0 /\ bufferSize s = 1024 /\
  snd (run (OpWrite [] 3) s) = Failed BufferFull.
Proof. vm_compute. repeat split. Qed.

(** ** Resizing through [SET_BUFFER_SIZE] *)

(** C7 (as amended): on a loaded module, [SET_BUFFER_SIZE] asks for
    [arg || 2048].  The call fails exactly when that size is above
    [config.maxBufferSize] (['Buffer size exceeds maximum allowed']) or is
    negative (the allocation raises a [RangeError]), and each of these
    failures leaves size, contents, used count and position of the buffer
    as they were.  An argument of 0 counts as absent and asks for 2048. *)
Theorem set_buffer_size_failure (s : KernelSimulator) (arg : option Z) :
  moduleLoaded s = true ->
  let newSize := js_or arg 2048 in
  let r := deviceIoctl "SET_BUFFER_SIZE" arg s in
  js_or (Some 0) 2048 = 2048 /\
  (maxBufferSize (config s) < newSize ->
     snd r = Rejected BufferSizeExceedsMax /\ same_buffer s (fst r)) /\
  (newSize < 0 -> newSize <= maxBufferSize (config s) ->
     snd r = Rejected RangeError /\ same_buffer s (fst r)) /\
  (0 <= newSize <= maxBufferSize (config s) ->
     snd r = Resolved (BufferSizeSet newSize) /\ bufferSize (fst r) = newSize).
Proof.
  intros Hl newSize r. subst r. unfold deviceIoctl. rewrite Hl. simpl.
  rewrite deviceIoctl_timer_eq. simpl. fold newSize.
  split; [reflexivity|].
  destruct (newSize >? maxBufferSize (config s)) eqn:E;
    [|destruct (newSize <? 0) eqn:E2];
    reflect_tests; simpl; unfold same_buffer;
    repeat split; intros; try reflexivity; lia.
Qed.

Lemma set_buffer_size_failure_witness :
  let s := newKernelSimulator 0 in
  moduleLoaded s = true /\
  maxBufferSize (config s) < js_or (Some 99999) 2048 /\
  snd (deviceIoctl "SET_BUFFER_SIZE" (Some 99999) s) = Rejected BufferSizeExceedsMax /\
  same_buffer s (fst (deviceIoctl "SET_BUFFER_SIZE" (Some 99999) s)).
Proof.
  intros s. split; [reflexivity|]. split; [reflexivity|].
  apply (proj1 (proj2 (set_buffer_size_failure s (Some 99999) eq_refl))).
  reflexivity.
Defined.

(** C7 (as stated) fails: a requested capacity of 0 is not refused; the
    call succeeds and the buffer becomes 2048 bytes long. *)
Lemma set_buffer_size_zero_succeeds :
  let s := newKernelSimulator 0 in
  bufferSize s = 1024 /\
  snd (deviceIoctl "SET_BUFFER_SIZE" (Some 0) s) = Resolved (BufferSizeSet 2048) /\
  bufferSize (fst (deviceIoctl "SET_BUFFER_SIZE" (Some 0) s)) = 2048.
Proof. vm_compute. repeat split. Qed.

(** ** Reading back what was written *)

(** After a write into a region that lies inside the storage, the cell at
    offset [i] of the region holds byte [i] of the data. *)
Lemma written_view_get (s : KernelSimulator) (dataBytes : list byte) (i : nat) :
  0 <= bufferPosition s ->
  (i < length dataBytes)%nat ->
  bufferPosition s + Z.of_nat i < len (bufferView s) ->
  u8_get (written_view s dataBytes (len dataBytes)) (bufferPosition s + Z.of_nat i) =
  u8_get dataBytes (Z.of_nat i).
Proof.
  intros Hp Hi Hin. unfold len in Hin. unfold written_view, len, u8_get at 1.
  destruct (bufferPosition s + Z.of_nat i <? 0) eqn:E; [apply Z.ltb_lt in E; lia|].
  rewrite write_loop_lookup by lia.
  destruct (decide _) as [H|H]; [|lia].
  simpl. f_equal. lia.
Qed.

(** ** The decoder on ASCII text *)

Lemma utf8_decode_ascii (B : list byte) :
  ascii_only B -> utf8_decode utf8_start B = map byte_val B.
Proof.
  induction 1 as [|b B Hb _ IH]; [reflexivity|].
  simpl. unfold utf8_handler, utf8_lead. simpl.
  apply Z.leb_le in Hb. rewrite Hb. simpl. rewrite IH. reflexivity.
Qed.

Lemma utf16_units_ascii (B : list byte) :
  ascii_only B -> concat (map utf16_units (map byte_val B)) = map byte_val B.
Proof.
  induction 1 as [|b B Hb _ IH]; [reflexivity|].
  simpl. rewrite IH. unfold utf16_units.
  destruct (byte_val b <? 65536) eqn:E; [reflexivity|].
  apply Z.ltb_ge in E. lia.
Qed.

(** ASCII bytes decode to the same characters, one code unit each. *)
Lemma TextDecoder_decode_ascii (B : list byte) :
  ascii_only B -> TextDecoder_decode B = map byte_val B.
Proof.
  intros HB. unfold TextDecoder_decode. rewrite utf8_decode_ascii by exact HB.
  rewrite <- (utf16_units_ascii B HB) at 2. f_equal. f_equal.
  destruct HB as [|b B Hb HB]; [reflexivity|].
  simpl. unfold BOM.
  destruct (byte_val b =? 65279) eqn:E; [apply Z.eqb_eq in E; lia | reflexivity].
Qed.

Lemma TextDecoder_decode_ascii_app (B1 B2 : list byte) :
  ascii_only (B1 ++ B2) ->
  TextDecoder_decode (B1 ++ B2) = TextDecoder_decode B1 ++ TextDecoder_decode B2.
Proof.
  intros H. pose proof H as H'. apply Forall_app in H' as [H1 H2].
  rewrite !TextDecoder_decode_ascii by assumption. apply map_app.
Qed.

(** The decoder is not the identity on other bytes: it drops a byte order
    mark at the start, and a multi-byte character cut in two decodes to
    two replacement characters. *)
Lemma TextDecoder_decode_examples :
  TextDecoder_decode [xef; xbb; xbf; x68; x69] = text "hi" /\
  TextDecoder_decode [xc3; xa9] = [0xE9] /\
  TextDecoder_decode [xc3] = [REPLACEMENT] /\
  TextDecoder_decode [xa9] = [REPLACEMENT] /\
  TextDecoder_decode [xf0; x9f; x98; x80] = [0xD83D; 0xDE00].
Proof. vm_compute. repeat split. Qed.

(** What a successful read returns, and what it does to [bufferUsed]. *)
Lemma deviceRead_returns_window (s : KernelSimulator) (count now : Z) :
  moduleLoaded s = true -> mutex s = false ->
  0 < Z.min count (bufferUsed s) ->
  let n := Z.min count (bufferUsed s) in
  snd (deviceRead count now s) =
    Resolved (mkReadResult (TextDecoder_decode (read_window s n)) n) /\
  bufferUsed (fst (deviceRead count now s)) = bufferUsed s - n.
Proof.
  intros Hl Hm Hn n. unfold deviceRead. rewrite Hl. simpl.
  rewrite deviceRead_timer_free by exact Hm. simpl. fold n.
  destruct (n =? 0) eqn:E; [apply Z.eqb_eq in E; lia|].
  destruct (n <? 0) eqn:E2; [apply Z.ltb_lt in E2; lia|].
  simpl. rewrite read_bytes_window by lia. split; reflexivity.
Qed.

Lemma seq_from (a n : nat) : seq a n = map (fun i => (a + i)%nat) (seq 0 n).
Proof.
  rewrite <- (Nat.add_0_r a) at 1. symmetry. apply (fmap_add_seq a 0 n).
Qed.

Lemma u8_get_ext (a b : list byte) (j : Z) :
  a !! Z.to_nat j = b !! Z.to_nat j -> u8_get a j = u8_get b j.
Proof. intros H. unfold u8_get. rewrite H. reflexivity. Qed.

(** A write into a region inside the storage leaves the cells before the
    region as they were. *)
Lemma written_view_before (s : KernelSimulator) (dataBytes : list byte) (n j : Z) :
  0 <= n -> 0 <= j < bufferPosition s ->
  u8_get (written_view s dataBytes n) j = u8_get (bufferView s) j.
Proof.
  intros Hn Hj. apply u8_get_ext. unfold written_view.
  destruct (decide (Z.to_nat j < length (bufferView s))%nat) as [Hin|Hout].
  - rewrite <- (Z2Nat.id n) by exact Hn.
    rewrite write_loop_lookup by lia.
    destruct (decide _) as [H|H]; [lia | reflexivity].
  - rewrite !(proj2 (lookup_ge_None _ _));
      [reflexivity | lia |].
    rewrite (copy_loop_length (fun i => bufferPosition s + i)). lia.
Qed.

(** First in, first out: while the readable region and the written region
    both lie inside the storage, a write appends its bytes to the bytes
    that a read would return. *)
Lemma write_appends_to_readable (s : KernelSimulator) (B : list byte) (now : Z) :
  moduleLoaded s = true -> mutex s = false ->
  len (bufferView s) = bufferSize s ->
  0 <= bufferUsed s <= bufferPosition s ->
  bufferPosition s + len B < bufferSize s ->
  B <> [] ->
  let s1 := fst (deviceWrite B now s) in
  bufferUsed s1 = bufferUsed s + len B /\
  read_window s1 (bufferUsed s1) = read_window s (bufferUsed s) ++ B.
Proof.
  intros Hl Hm Hlen Hu Hfit HB.
  assert (0 < len B) as HnB.
  { unfold len. destruct B; [congruence | simpl; lia]. }
  assert (Z.min (len B) (bufferSize s - bufferUsed s) = len B) as Hmin by lia.
  unfold deviceWrite. rewrite Hl. simpl.
  rewrite deviceWrite_timer_free by exact Hm. simpl. rewrite Hmin.
  destruct (len B =? 0) eqn:E; [apply Z.eqb_eq in E; lia|]. simpl.
  split; [reflexivity|].
  unfold read_window. simpl. unfold js_rem at 2.
  rewrite (Z.rem_small (bufferPosition s + len B)) by lia.
  replace (bufferPosition s + len B - (bufferUsed s + len B))
    with (bufferPosition s - bufferUsed s) by lia.
  rewrite Z.max_r by lia.
  replace (Z.to_nat (bufferUsed s + len B))
    with (Z.to_nat (bufferUsed s) + length B)%nat by (unfold len; lia).
  rewrite seq_app, map_app. f_equal.
  - apply map_ext_in. intros i Hi. apply in_seq in Hi.
    unfold js_rem. rewrite Z.rem_small by lia.
    apply written_view_before; lia.
  - rewrite <- (u8_get_all B) at 2.
    rewrite Nat.add_0_l, seq_from, map_map.
    apply map_ext_in. intros i Hi. apply in_seq in Hi.
    assert (Z.of_nat i < len B) as Hi' by (unfold len; lia).
    unfold js_rem. rewrite Z.rem_small by lia.
    replace (bufferPosition s - bufferUsed s + Z.of_nat (Z.to_nat (bufferUsed s) + i))
      with (bufferPosition s + Z.of_nat i) by lia.
    apply written_view_get; lia.
Qed.

(** A write into an empty buffer whose region lies inside the storage
    puts exactly its bytes into the window the next read copies. *)
Lemma written_bytes_are_readable (s : KernelSimulator) (B : list byte) (now : Z) :
  moduleLoaded s = true -> mutex s = false ->
  len (bufferView s) = bufferSize s ->
  bufferUsed s = 0 -> 0 <= bufferPosition s ->
  B <> [] ->
  (bufferPosition s + len B < bufferSize s \/
   (bufferPosition s = 0 /\ len B <= bufferSize s)) ->
  let s1 := fst (deviceWrite B now s) in
  snd (deviceWrite B now s) = Resolved (mkWriteResult (len B)) /\
  moduleLoaded s1 = true /\ mutex s1 = false /\ bufferUsed s1 = len B /\
  read_window s1 (len B) = B.
Proof.
  intros Hl Hm Hlen Hu Hp HB Hfit.
  assert (0 < len B) as HnB.
  { unfold len. destruct B; [congruence | simpl; lia]. }
  assert (Z.min (len B) (bufferSize s - bufferUsed s) = len B) as Hmin by lia.
  unfold deviceWrite. rewrite Hl. simpl.
  rewrite deviceWrite_timer_free by exact Hm. simpl. rewrite Hmin.
  destruct (len B =? 0) eqn:E; [apply Z.eqb_eq in E; lia|]. simpl.
  split; [reflexivity|]. split; [exact Hl|]. split; [reflexivity|].
  split; [lia|].
  etransitivity; [|apply (u8_get_all B)].
  unfold read_window. simpl.
  replace (Z.to_nat (len B)) with (length B) by (unfold len; lia).
  apply map_ext_in. intros i Hi. apply in_seq in Hi.
  assert (Z.max 0 (js_rem (bufferPosition s + len B) (bufferSize s)
                   - (bufferUsed s + len B)) = bufferPosition s) as Hstart.
  { unfold js_rem. destruct Hfit as [Hlt | [H0 Hle]].
    - rewrite Z.rem_small by lia. lia.
    - rewrite H0. simpl.
      destruct (Z.eq_dec (len B) (bufferSize s)) as [Heq|Hne].
      + rewrite Heq, Z.rem_same by lia. lia.
      + rewrite Z.rem_small by lia. lia. }
  rewrite Hstart. unfold js_rem.
  assert (Z.of_nat i < len B) as Hi' by (unfold len; lia).
  rewrite Z.rem_small by lia.
  apply written_view_get; [exact Hp | lia | lia].
Qed.

(** C1 (as amended): let the module be loaded, the mutex free, the storage
    as long as [bufferSize], and the buffer empty ([bufferUsed = 0]).  For
    every non-empty byte sequence [B] whose region [bufferPosition ..
    bufferPosition + len B] ends before the end of the storage (or starts
    at offset 0 and fits), [write(B)] succeeds with [len B] bytes and the
    following [read(len B)] takes exactly the bytes [B], in order, out of
    the buffer: it reports [len B] bytes and returns them as text, the
    string that [TextDecoder] makes of [B].  When [B] is ASCII that string
    is [B], character for character. *)
Theorem write_then_read_round_trip
  (s : KernelSimulator) (B : list byte) (now now' : Z) :
  moduleLoaded s = true -> mutex s = false ->
  len (bufferView s) = bufferSize s ->
  bufferUsed s = 0 -> 0 <= bufferPosition s ->
  B <> [] ->
  (bufferPosition s + len B < bufferSize s \/
   (bufferPosition s = 0 /\ len B <= bufferSize s)) ->
  let s1 := fst (deviceWrite B now s) in
  snd (deviceWrite B now s) = Resolved (mkWriteResult (len B)) /\
  read_window s1 (len B) = B /\
  snd (deviceRead (len B) now' s1) =
    Resolved (mkReadResult (TextDecoder_decode B) (len B)) /\
  (ascii_only B ->
   snd (deviceRead (len B) now' s1) =
     Resolved (mkReadResult (map byte_val B) (len B))).
Proof.
  intros Hl Hm Hlen Hu Hp HB Hfit s1.
  destruct (written_bytes_are_readable s B now Hl Hm Hlen Hu Hp HB Hfit)
    as (Hw & Hl1 & Hm1 & Hu1 & Hwin).
  fold s1 in Hl1, Hm1, Hu1, Hwin.
  assert (0 < len B) as HnB.
  { unfold len. destruct B; [congruence | simpl; lia]. }
  destruct (deviceRead_returns_window s1 (len B) now' Hl1 Hm1) as [Hr _];
    [lia|].
  replace (Z.min (len B) (bufferUsed s1)) with (len B) in Hr by lia.
  rewrite Hwin in Hr.
  split; [exact Hw|]. split; [exact Hwin|]. split; [exact Hr|].
  intros Hascii. rewrite Hr, TextDecoder_decode_ascii by exact Hascii.
  reflexivity.
Qed.

Lemma write_then_read_round_trip_witness :
  let s := run_all [OpWrite (bytes "ab") 1; OpRead 2 2] (newKernelSimulator 0) in
  bufferPosition s = 2 /\ bufferUsed s = 0 /\
  snd (deviceWrite (bytes "hello") 3 s) = Resolved (mkWriteResult 5) /\
  snd (deviceRead 5 4 (fst (deviceWrite (bytes "hello") 3 s))) =
    Resolved (mkReadResult (text "hello") 5).
Proof.
  intros s. split; [reflexivity|]. split; [reflexivity|].
  destruct (write_then_read_round_trip s (bytes "hello") 3 4) as (Hw & _ & _ & Ha);
    try reflexivity; try discriminate.
  - left. reflexivity.
  - split; [exact Hw|]. apply Ha. repeat constructor; discriminate.
Defined.

(** C1 (as stated) fails: with two unread bytes ["ab"] in the buffer and
    plenty of room, writing ["cd"] and reading two bytes returns ["ab"],
    the oldest unread bytes, not what was just written. *)
Lemma read_returns_oldest_bytes_first :
  let s := fst (deviceWrite (bytes "ab") 1 (newKernelSimulator 0)) in
  bufferUsed s = 2 /\ bufferSize s = 1024 /\
  len (bytes "cd") <= bufferSize s - bufferUsed s /\
  snd (deviceWrite (bytes "cd") 2 s) = Resolved (mkWriteResult 2) /\
  read_window (fst (deviceWrite (bytes "cd") 2 s)) 2 = bytes "ab" /\
  snd (deviceRead 2 3 (fst (deviceWrite (bytes "cd") 2 s))) =
    Resolved (mkReadResult (text "ab") 2) /\
  bytes "ab" <> bytes "cd" /\ text "ab" <> text "cd".
Proof. vm_compute. repeat split; discriminate. Qed.

(** What comes back is text, not bytes: on a new driver the five bytes of
    a byte order mark followed by ["hi"] are written and read back in
    full, and the string returned is ["hi"]. *)
Lemma read_drops_byte_order_mark :
  let B := [xef; xbb; xbf; x68; x69] in
  let s1 := fst (deviceWrite B 1 (newKernelSimulator 0)) in
  snd (deviceWrite B 1 (newKernelSimulator 0)) = Resolved (mkWriteResult 5) /\
  read_window s1 5 = B /\
  snd (deviceRead 5 2 s1) = Resolved (mkReadResult (text "hi") 5).
Proof. vm_compute. repeat split. Qed.

(** ** Where the read starts *)

(** As long as the readable region has not wrapped ([bufferUsed <=
    bufferPosition]) the window of [deviceRead] is the region of the data
    model. *)
Lemma read_window_unwrapped (s : KernelSimulator) (n : Z) :
  0 < bufferSize s -> bufferUsed s <= bufferPosition s ->
  read_window s n = ring_window s n.
Proof.
  intros Hs Hu. unfold read_window, ring_window, js_rem.
  apply map_ext. intros i. f_equal.
  rewrite Z.max_r by lia.
  rewrite Z.rem_mod_nonneg by lia.
  rewrite Zplus_mod_idemp_l.
  replace (bufferPosition s - bufferUsed s + bufferSize s + Z.of_nat i)
    with (bufferPosition s - bufferUsed s + Z.of_nat i + 1 * bufferSize s) by lia.
  symmetry. apply Z_mod_plus_full.
Qed.

(** C2 (the code departs from the claim): once the write cursor has
    wrapped, [deviceRead] does not start at
    [(bufferPosition - bufferUsed + bufferSize) mod bufferSize].  With a
    4-byte buffer, write ["abc"], read 3, write ["de"]: the cursor is at 1
    with 2 bytes unread, the data model starts the read at offset 3, and
    [deviceRead] clamps the start to offset 0 and returns ["ab"]. *)
Theorem read_start_is_clamped_not_wrapped :
  let s := run_all [OpIoctl "SET_BUFFER_SIZE" (Some 4); OpWrite (bytes "abc") 1;
                    OpRead 3 2; OpWrite (bytes "de") 3] (newKernelSimulator 0) in
  bufferSize s = 4 /\ bufferUsed s = 2 /\ bufferPosition s = 1 /\
  bufferView s = bytes "abcd" /\
  (bufferPosition s - bufferUsed s + bufferSize s) mod bufferSize s = 3 /\
  Z.max 0 (bufferPosition s - bufferUsed s) = 0 /\
  ring_window s 2 = bytes "da" /\
  read_window s 2 = bytes "ab" /\
  snd (deviceRead 2 4 s) = Resolved (mkReadResult (text "ab") 2) /\
  bufferUsed (fst (deviceRead 2 4 s)) = 0.
Proof. vm_compute. repeat split. Qed.

(** The same trace shows the write side: the copy loop of [deviceWrite]
    indexes [bufferPosition + i] without wrapping, so the byte ["e"] falls
    outside the array and is dropped while [bufferUsed] counts it. *)
Lemma write_past_the_end_is_dropped :
  let s := run_all [OpIoctl "SET_BUFFER_SIZE" (Some 4); OpWrite (bytes "abc") 1;
                    OpRead 3 2] (newKernelSimulator 0) in
  bufferPosition s = 3 /\ bufferUsed s = 0 /\
  snd (deviceWrite (bytes "de") 3 s) = Resolved (mkWriteResult 2) /\
  bufferView (fst (deviceWrite (bytes "de") 3 s)) = bytes "abcd".
Proof. vm_compute. repeat split. Qed.

(** ** What a resize keeps *)

(** C6 (the code departs from the claim): [resizeBuffer] copies the first
    [min bufferUsed newSize] cells of the storage, not the readable region,
    and clamps the cursor instead of moving it to the copied length.  After
    write ["abcd"] and read 2 the unread bytes are ["cd"] at offsets 2 and
    3; growing the buffer to 8 succeeds, keeps ["ab"], leaves the cursor at
    4, and the next read of 2 bytes takes two zero bytes and returns
    them as two NUL characters. *)
Theorem resize_loses_the_readable_region :
  let s := run_all [OpWrite (bytes "abcd") 1; OpRead 2 2] (newKernelSimulator 0) in
  let s' := fst (deviceIoctl "SET_BUFFER_SIZE" (Some 8) s) in
  bufferUsed s = 2 /\ bufferPosition s = 4 /\
  read_window s 2 = bytes "cd" /\ ring_window s 2 = bytes "cd" /\
  snd (deviceIoctl "SET_BUFFER_SIZE" (Some 8) s) = Resolved (BufferSizeSet 8) /\
  bufferSize s' = 8 /\ bufferUsed s' = 2 /\ bufferPosition s' = 4 /\
  bufferView s' = bytes "ab" ++ replicate 6 x00 /\
  read_window s' 2 = [x00; x00] /\
  snd (deviceRead 2 3 s') = Resolved (mkReadResult [0; 0] 2).
Proof. vm_compute. repeat split. Qed.

(** The storage after a resize: the first [min bufferUsed newSize] cells of
    the old storage, then zeros. *)
Lemma resized_view_eq (s : KernelSimulator) (newSize : Z) :
  0 <= newSize ->
  resized_view s newSize =
    map (fun i => u8_get (bufferView s) (Z.of_nat i))
      (seq 0 (Z.to_nat (Z.min (bufferUsed s) newSize))) ++
    replicate (Z.to_nat newSize - Z.to_nat (Z.min (bufferUsed s) newSize)) x00.
Proof.
  intros Hn. unfold resized_view, u8_new.
  destruct (Z.le_gt_cases 0 (Z.min (bufferUsed s) newSize)) as [Hk|Hk].
  - rewrite <- (Z2Nat.id (Z.min (bufferUsed s) newSize)) at 1 by exact Hk.
    apply (read_loop_map (fun i => u8_get (bufferView s) i)). lia.
  - unfold for_loop.
    replace (Z.to_nat (Z.min (bufferUsed s) newSize)) with 0%nat by lia.
    simpl. rewrite Nat.sub_0_r. reflexivity.
Qed.

(** When the readable region starts at offset 0 of the storage and the new
    size holds it, the resize does keep it. *)
Lemma resize_keeps_region_at_offset_zero :
  let s := fst (deviceWrite (bytes "abcd") 1 (newKernelSimulator 0)) in
  let s' := fst (deviceIoctl "SET_BUFFER_SIZE" (Some 8) s) in
  bufferUsed s = 4 /\ bufferPosition s = 4 /\
  read_window s' 4 = bytes "abcd" /\
  snd (deviceRead 4 3 s') = Resolved (mkReadResult (text "abcd") 4).
Proof. vm_compute. repeat split. Qed.

(** * Further properties of the driver *)

(** ** Edge cases of read and write *)

(** X1: on a loaded driver with the mutex free, a read that finds the
    buffer empty is not an error: it resolves with no data and a count of
    0 and leaves buffer, statistics and active counters as they were. *)
Theorem read_on_empty_buffer (s : KernelSimulator) (count now : Z) :
  moduleLoaded s = true -> mutex s = false ->
  bufferUsed s = 0 -> 0 <= count ->
  snd (deviceRead count now s) = Resolved (mkReadResult [] 0) /\
  same_buffer s (fst (deviceRead count now s)) /\
  stats (fst (deviceRead count now s)) = stats s /\
  activeReaders (fst (deviceRead count now s)) = activeReaders s /\
  mutex (fst (deviceRead count now s)) = false.
Proof.
  intros Hl Hm Hu Hc. unfold deviceRead. rewrite Hl. simpl.
  rewrite deviceRead_timer_free by exact Hm. simpl.
  replace (Z.min count (bufferUsed s)) with 0 by lia. simpl.
  unfold same_buffer. simpl. repeat split. lia.
Qed.

Lemma read_on_empty_buffer_witness :
  let s := newKernelSimulator 0 in
  snd (deviceRead 64 1 s) = Resolved (mkReadResult [] 0) /\
  same_buffer s (fst (deviceRead 64 1 s)) /\
  stats (fst (deviceRead 64 1 s)) = stats s /\
  activeReaders (fst (deviceRead 64 1 s)) = activeReaders s /\
  mutex (fst (deviceRead 64 1 s)) = false.
Proof.
  intros s. apply (read_on_empty_buffer s 64 1); try reflexivity. discriminate.
Defined.

(** X2: on a loaded driver with the mutex free, a read with a negative
    count fails with the [RangeError] of the array allocation: the error is
    counted once, nothing is read, and the buffer is left as it was. *)
Theorem read_with_negative_count (s : KernelSimulator) (count now : Z) :
  moduleLoaded s = true -> mutex s = false -> count < 0 ->
  snd (deviceRead count now s) = Rejected RangeError /\
  same_buffer s (fst (deviceRead count now s)) /\
  errorCount (stats (fst (deviceRead count now s))) = errorCount (stats s) + 1 /\
  bytesRead (stats (fst (deviceRead count now s))) = bytesRead (stats s) /\
  activeReaders (fst (deviceRead count now s)) = activeReaders s /\
  mutex (fst (deviceRead count now s)) = false.
Proof.
  intros Hl Hm Hc. unfold deviceRead. rewrite Hl. simpl.
  rewrite deviceRead_timer_free by exact Hm. simpl.
  destruct (Z.min count (bufferUsed s) =? 0) eqn:E; [apply Z.eqb_eq in E; lia|].
  destruct (Z.min count (bufferUsed s) <? 0) eqn:E2; [|apply Z.ltb_ge in E2; lia].
  unfold same_buffer. simpl. repeat split. lia.
Qed.

Lemma read_with_negative_count_witness :
  let s := fst (deviceWrite (bytes "abc") 1 (newKernelSimulator 0)) in
  snd (deviceRead (-5) 2 s) = Rejected RangeError /\
  same_buffer s (fst (deviceRead (-5) 2 s)) /\
  errorCount (stats (fst (deviceRead (-5) 2 s))) = errorCount (stats s) + 1 /\
  bytesRead (stats (fst (deviceRead (-5) 2 s))) = bytesRead (stats s) /\
  activeReaders (fst (deviceRead (-5) 2 s)) = activeReaders s /\
  mutex (fst (deviceRead (-5) 2 s)) = false.
Proof.
  intros s. apply (read_with_negative_count s (-5) 2); reflexivity.
Defined.

(** X3: a write that does not fit is cut short, and a full buffer refuses
    the next one.  On a loaded driver with the mutex free and room left,
    data at least as long as the free room is accepted for exactly the
    free room; the buffer is then full, and any further write is rejected
    with ['Buffer full'] without touching buffer or statistics. *)
Theorem write_is_truncated_then_refused
  (s : KernelSimulator) (dataBytes more : list byte) (now now' : Z) :
  moduleLoaded s = true -> mutex s = false ->
  0 <= bufferUsed s < bufferSize s ->
  bufferSize s - bufferUsed s <= len dataBytes ->
  let s1 := fst (deviceWrite dataBytes now s) in
  snd (deviceWrite dataBytes now s) =
    Resolved (mkWriteResult (bufferSize s - bufferUsed s)) /\
  bufferUsed s1 = bufferSize s1 /\
  snd (deviceWrite more now' s1) = Rejected BufferFull /\
  same_buffer s1 (fst (deviceWrite more now' s1)) /\
  stats (fst (deviceWrite more now' s1)) = stats s1.
Proof.
  intros Hl Hm Hu Hlen. unfold deviceWrite at 1 2 3. rewrite Hl. simpl.
  rewrite deviceWrite_timer_free by exact Hm. simpl.
  replace (Z.min (len dataBytes) (bufferSize s - bufferUsed s))
    with (bufferSize s - bufferUsed s) by lia.
  destruct (bufferSize s - bufferUsed s =? 0) eqn:E; [apply Z.eqb_eq in E; lia|].
  simpl. split; [reflexivity|]. split; [lia|].
  unfold deviceWrite. simpl. rewrite Hl. simpl.
  rewrite deviceWrite_timer_free by reflexivity. simpl.
  replace (Z.min (len more)
             (bufferSize s - (bufferUsed s + (bufferSize s - bufferUsed s))))
    with 0 by (unfold len; lia).
  simpl. unfold same_buffer. simpl. repeat split.
Qed.

Lemma write_is_truncated_then_refused_witness :
  let s := fst (deviceIoctl "SET_BUFFER_SIZE" (Some 4) (newKernelSimulator 0)) in
  let s1 := fst (deviceWrite (bytes "ABCDE") 1 s) in
  snd (deviceWrite (bytes "ABCDE") 1 s) = Resolved (mkWriteResult 4) /\
  bufferUsed s1 = bufferSize s1 /\
  snd (deviceWrite (bytes "F") 2 s1) = Rejected BufferFull /\
  same_buffer s1 (fst (deviceWrite (bytes "F") 2 s1)) /\
  stats (fst (deviceWrite (bytes "F") 2 s1)) = stats s1.
Proof.
  intros s.
  apply (write_is_truncated_then_refused s (bytes "ABCDE") (bytes "F") 1 2);
    try reflexivity.
  - split; [discriminate | reflexivity].
  - discriminate.
Defined.

(** ** Order of the bytes *)

Lemma data_call_keeps_module (s : KernelSimulator) :
  (forall dataBytes now,
     moduleLoaded (fst (deviceWrite dataBytes now s)) = moduleLoaded s) /\
  (forall count now,
     moduleLoaded (fst (deviceRead count now s)) = moduleLoaded s).
Proof.
  split; intros; unfold deviceWrite, deviceRead;
    rewrite ?deviceWrite_timer_eq, ?deviceRead_timer_eq; cbv zeta;
    repeat match goal with
    | |- context [if ?b then _ else _] => destruct b eqn:?
    end; reflexivity.
Qed.

Lemma data_call_frees_mutex (s : KernelSimulator) :
  mutex s = false ->
  (forall dataBytes now, mutex (fst (deviceWrite dataBytes now s)) = false) /\
  (forall count now, mutex (fst (deviceRead count now s)) = false).
Proof.
  intros Hm. split; intros.
  - apply (acquired_call_balances (OpWrite dataBytes now) s Hm eq_refl).
  - apply (acquired_call_balances (OpRead count now) s Hm eq_refl).
Qed.

(** X4: splitting a read.  While the unread bytes lie before the cursor
    ([bufferUsed <= bufferPosition]), reading [n1] bytes and then [n2]
    bytes takes out of the buffer, back to back, exactly the bytes that one
    read of [n1 + n2] bytes takes, and leaves the same number of bytes
    unread.  Each call returns the text decoded from its own bytes; when
    the bytes are ASCII, the two texts put together are the text of the
    single read. *)
Theorem consecutive_reads_compose (s : KernelSimulator) (n1 n2 now now' : Z) :
  moduleLoaded s = true -> mutex s = false ->
  bufferUsed s <= bufferPosition s ->
  0 < n1 -> 0 < n2 -> n1 + n2 <= bufferUsed s ->
  let r1 := deviceRead n1 now s in
  let r2 := deviceRead n2 now' (fst r1) in
  let r := deviceRead (n1 + n2) now s in
  let b1 := read_window s n1 in
  let b2 := read_window (fst r1) n2 in
  read_window s (n1 + n2) = b1 ++ b2 /\
  snd r1 = Resolved (mkReadResult (TextDecoder_decode b1) n1) /\
  snd r2 = Resolved (mkReadResult (TextDecoder_decode b2) n2) /\
  snd r = Resolved (mkReadResult (TextDecoder_decode (b1 ++ b2)) (n1 + n2)) /\
  bufferUsed (fst r2) = bufferUsed (fst r) /\
  (ascii_only (b1 ++ b2) ->
   exists d1 d2,
     snd r1 = Resolved (mkReadResult d1 n1) /\
     snd r2 = Resolved (mkReadResult d2 n2) /\
     snd r = Resolved (mkReadResult (d1 ++ d2) (n1 + n2))).
Proof.
  intros Hl Hm Hu H1 H2 Hn r1 r2 r b1 b2. subst r1 r2 r b1 b2.
  destruct (deviceRead_returns_window s n1 now Hl Hm) as [Ha Hau]; [lia|].
  destruct (deviceRead_returns_window s (n1 + n2) now Hl Hm) as [Hb Hbu]; [lia|].
  set (s1 := fst (deviceRead n1 now s)) in *.
  assert (moduleLoaded s1 = true) as Hl1
    by (unfold s1; rewrite (proj2 (data_call_keeps_module s)); exact Hl).
  assert (mutex s1 = false) as Hm1
    by (apply (proj2 (data_call_frees_mutex s Hm))).
  assert (bufferPosition s1 = bufferPosition s /\ bufferView s1 = bufferView s /\
          bufferSize s1 = bufferSize s) as (Hp1 & Hv1 & Hs1).
  { unfold s1, deviceRead. rewrite Hl. simpl.
    rewrite deviceRead_timer_free by exact Hm. cbv zeta.
    repeat match goal with
    | |- context [if ?b then _ else _] => destruct b eqn:?
    end; simpl; repeat split. }
  destruct (deviceRead_returns_window s1 n2 now' Hl1 Hm1) as [Hc Hcu]; [lia|].
  replace (Z.min n1 (bufferUsed s)) with n1 in * by lia.
  replace (Z.min (n1 + n2) (bufferUsed s)) with (n1 + n2) in * by lia.
  replace (Z.min n2 (bufferUsed s1)) with n2 in * by lia.
  assert (read_window s (n1 + n2) = read_window s n1 ++ read_window s1 n2) as Hw.
  { unfold read_window. rewrite Hp1, Hv1, Hs1, Hau.
    replace (Z.to_nat (n1 + n2)) with (Z.to_nat n1 + Z.to_nat n2)%nat by lia.
    rewrite seq_app, map_app. f_equal.
    rewrite Nat.add_0_l, seq_from, map_map.
    apply map_ext. intros i. f_equal. f_equal. lia. }
  rewrite Hw in Hb.
  split; [exact Hw|]. split; [exact Ha|]. split; [exact Hc|].
  split; [exact Hb|]. split; [lia|].
  intros Hascii.
  exists (TextDecoder_decode (read_window s n1)),
         (TextDecoder_decode (read_window s1 n2)).
  split; [exact Ha|]. split; [exact Hc|].
  rewrite Hb, TextDecoder_decode_ascii_app by exact Hascii. reflexivity.
Qed.

Lemma consecutive_reads_compose_witness :
  let s := fst (deviceWrite (bytes "HELLOWORLD") 1 (newKernelSimulator 0)) in
  snd (deviceRead 2 2 s) = Resolved (mkReadResult (text "HE") 2) /\
  snd (deviceRead 3 3 (fst (deviceRead 2 2 s))) =
    Resolved (mkReadResult (text "LLO") 3) /\
  snd (deviceRead (2 + 3) 2 s) = Resolved (mkReadResult (text "HELLO") (2 + 3)) /\
  exists d1 d2,
    snd (deviceRead 2 2 s) = Resolved (mkReadResult d1 2) /\
    snd (deviceRead 3 3 (fst (deviceRead 2 2 s))) = Resolved (mkReadResult d2 3) /\
    snd (deviceRead (2 + 3) 2 s) = Resolved (mkReadResult (d1 ++ d2) (2 + 3)).
Proof.
  intros s.
  destruct (consecutive_reads_compose s 2 3 2 3)
    as (_ & H1 & H2 & H & _ & Ha); try reflexivity; try discriminate.
  split; [exact H1|]. split; [exact H2|]. split; [exact H|].
  apply Ha. repeat constructor; discriminate.
Defined.

(** A read that stops inside a multi-byte character: the two bytes of
    U+00E9 (C3 A9) read one at a time come back as two replacement
    characters, read together as the character. *)
Lemma split_read_cuts_a_character :
  let s := fst (deviceWrite [xc3; xa9] 1 (newKernelSimulator 0)) in
  snd (deviceRead 1 2 s) = Resolved (mkReadResult [REPLACEMENT] 1) /\
  snd (deviceRead 1 3 (fst (deviceRead 1 2 s))) =
    Resolved (mkReadResult [REPLACEMENT] 1) /\
  snd (deviceRead 2 2 s) = Resolved (mkReadResult [0xE9] 2).
Proof. vm_compute. repeat split. Qed.

Lemma read_on_empty_window (s : KernelSimulator) (now : Z) :
  moduleLoaded s = true -> mutex s = false -> bufferUsed s = 0 ->
  snd (deviceRead 0 now s) = Resolved (mkReadResult [] 0) /\
  read_window s 0 = [].
Proof.
  intros Hl Hm Hu. unfold deviceRead. rewrite Hl. simpl.
  rewrite deviceRead_timer_free by exact Hm. simpl. rewrite Hu. simpl.
  split; reflexivity.
Qed.

(** X5: first in, first out.  While the unread bytes and the bytes to be
    written both lie inside the storage (unread bytes before the cursor,
    written region ending before the end), a write appends: a read of all
    unread bytes takes some bytes [old] before the write, and a read of
    everything after the write takes [old] followed by [B].  Each read
    returns its bytes decoded as text; when the bytes are ASCII, the text
    after the write is the text before it followed by [B]. *)
Theorem write_then_read_all_is_fifo
  (s : KernelSimulator) (B : list byte) (now0 now now' : Z) :
  moduleLoaded s = true -> mutex s = false ->
  len (bufferView s) = bufferSize s ->
  0 <= bufferUsed s <= bufferPosition s ->
  bufferPosition s + len B < bufferSize s ->
  B <> [] ->
  let old := read_window s (bufferUsed s) in
  let s1 := fst (deviceWrite B now s) in
  read_window s1 (bufferUsed s1) = old ++ B /\
  snd (deviceRead (bufferUsed s) now0 s) =
    Resolved (mkReadResult (TextDecoder_decode old) (bufferUsed s)) /\
  snd (deviceRead (bufferUsed s + len B) now' s1) =
    Resolved (mkReadResult (TextDecoder_decode (old ++ B)) (bufferUsed s + len B)) /\
  (ascii_only (old ++ B) ->
   forall d n,
     snd (deviceRead (bufferUsed s) now0 s) = Resolved (mkReadResult d n) ->
     snd (deviceRead (bufferUsed s + len B) now' s1) =
       Resolved (mkReadResult (d ++ map byte_val B) (n + len B))).
Proof.
  intros Hl Hm Hlen Hu Hfit HB old s1.
  assert (0 < len B) as HnB.
  { unfold len. destruct B; [congruence | simpl; lia]. }
  assert (snd (deviceRead (bufferUsed s) now0 s) =
            Resolved (mkReadResult (TextDecoder_decode old) (bufferUsed s))) as Hold.
  { destruct (Z.eq_dec (bufferUsed s) 0) as [H0|H0].
    - destruct (read_on_empty_window s now0 Hl Hm H0) as [Hr Hw].
      unfold old. rewrite H0, Hr, Hw. reflexivity.
    - destruct (deviceRead_returns_window s (bufferUsed s) now0 Hl Hm) as [Hr _];
        [lia|].
      replace (Z.min (bufferUsed s) (bufferUsed s)) with (bufferUsed s) in Hr by lia.
      exact Hr. }
  destruct (write_appends_to_readable s B now Hl Hm Hlen Hu Hfit HB) as [Hu1 Hw].
  fold s1 in Hu1, Hw. fold old in Hw.
  assert (snd (deviceRead (bufferUsed s + len B) now' s1) =
            Resolved (mkReadResult (TextDecoder_decode (old ++ B))
                        (bufferUsed s + len B))) as Hnew.
  { destruct (deviceRead_returns_window s1 (bufferUsed s + len B) now') as [Hr _].
    - unfold s1. rewrite (proj1 (data_call_keeps_module s)). exact Hl.
    - apply (proj1 (data_call_frees_mutex s Hm)).
    - lia.
    - rewrite Hr.
      replace (Z.min (bufferUsed s + len B) (bufferUsed s1))
        with (bufferUsed s1) by lia.
      rewrite Hw, Hu1. reflexivity. }
  split; [exact Hw|]. split; [exact Hold|]. split; [exact Hnew|].
  intros Hascii d n Hd. rewrite Hold in Hd. inversion Hd. subst d n.
  rewrite Hnew, TextDecoder_decode_ascii_app by exact Hascii.
  apply Forall_app in Hascii as [_ HasciiB].
  rewrite (TextDecoder_decode_ascii B HasciiB). reflexivity.
Qed.

Lemma write_then_read_all_is_fifo_witness :
  let s := fst (deviceWrite (bytes "ab") 1 (newKernelSimulator 0)) in
  snd (deviceRead (bufferUsed s) 2 s) = Resolved (mkReadResult (text "ab") 2) /\
  snd (deviceRead (bufferUsed s + len (bytes "cd")) 4
         (fst (deviceWrite (bytes "cd") 3 s))) =
    Resolved (mkReadResult (text "ab" ++ text "cd") (2 + len (bytes "cd"))).
Proof.
  intros s. split; [reflexivity|].
  destruct (write_then_read_all_is_fifo s (bytes "cd") 2 3 4)
    as (_ & _ & _ & Ha);
    [reflexivity | reflexivity | reflexivity | split; discriminate
    | reflexivity | discriminate |].
  apply Ha; [repeat constructor; discriminate | reflexivity].
Defined.

(** ** Control commands *)

(** X6: every ioctl that passes the module check is counted in
    [stats.ioctlCount], whether it succeeds or fails; a command other than
    the three known ones fails with ['Invalid IOCTL command'], is counted
    as an error as well, and leaves buffer and configuration as they
    were. *)
Theorem ioctl_is_counted_and_unknown_is_refused
  (s : KernelSimulator) (cmd : string) (arg : option Z) :
  moduleLoaded s = true ->
  let s1 := fst (deviceIoctl cmd arg s) in
  ioctlCount (stats s1) = ioctlCount (stats s) + 1 /\
  (cmd <> "CLEAR_BUFFER"%string -> cmd <> "SET_BUFFER_SIZE"%string ->
   cmd <> "ENABLE_LOGGING"%string ->
   snd (deviceIoctl cmd arg s) = Rejected InvalidIoctl /\
   errorCount (stats s1) = errorCount (stats s) + 1 /\
   same_buffer s s1 /\ config s1 = config s).
Proof.
  intros Hl. unfold deviceIoctl. rewrite Hl. simpl.
  rewrite deviceIoctl_timer_eq. cbv zeta. split.
  - repeat match goal with
    | |- context [if ?b then _ else _] => destruct b eqn:?
    end; reflexivity.
  - intros H1 H2 H3.
    apply String.eqb_neq in H1, H2, H3. rewrite H1, H2, H3.
    unfold same_buffer. simpl. repeat split.
Qed.

Lemma ioctl_is_counted_and_unknown_is_refused_witness :
  let s := newKernelSimulator 0 in
  ioctlCount (stats (fst (deviceIoctl "FORMAT_DISK" None s))) = ioctlCount (stats s) + 1 /\
  snd (deviceIoctl "FORMAT_DISK" None s) = Rejected InvalidIoctl /\
  errorCount (stats (fst (deviceIoctl "FORMAT_DISK" None s))) = errorCount (stats s) + 1 /\
  same_buffer s (fst (deviceIoctl "FORMAT_DISK" None s)) /\
  config (fst (deviceIoctl "FORMAT_DISK" None s)) = config s.
Proof.
  intros s.
  destruct (ioctl_is_counted_and_unknown_is_refused s "FORMAT_DISK" None eq_refl)
    as [Hc Hu].
  split; [exact Hc|]. apply Hu; discriminate.
Defined.

Lemma deviceIoctl_enable_logging (s : KernelSimulator) (arg : option Z) :
  moduleLoaded s = true ->
  deviceIoctl "ENABLE_LOGGING" arg s =
    (mkKernel (moduleLoaded s) (bufferView s) (bufferSize s) (bufferUsed s)
       (bufferPosition s) (incr_ioctlCount (stats s)) (activeReaders s)
       (activeWriters s) (waitQueue s) (mutex s)
       (mkConfig (negb (loggingEnabled (config s))) (maxBufferSize (config s))),
     Resolved (LoggingToggled (negb (loggingEnabled (config s))))).
Proof.
  intros Hl. unfold deviceIoctl. rewrite deviceIoctl_timer_eq. simpl.
  destruct (moduleLoaded s); [reflexivity | discriminate].
Qed.

(** X7: [ENABLE_LOGGING] is a toggle.  On a loaded driver two calls in a
    row both succeed, report the flipped and then the original value of
    [config.loggingEnabled], restore the configuration, and never touch
    the buffer. *)
Theorem enable_logging_twice_restores_config (s : KernelSimulator) (arg arg' : option Z) :
  moduleLoaded s = true ->
  let s1 := fst (deviceIoctl "ENABLE_LOGGING" arg s) in
  let s2 := fst (deviceIoctl "ENABLE_LOGGING" arg' s1) in
  snd (deviceIoctl "ENABLE_LOGGING" arg s) =
    Resolved (LoggingToggled (negb (loggingEnabled (config s)))) /\
  snd (deviceIoctl "ENABLE_LOGGING" arg' s1) =
    Resolved (LoggingToggled (loggingEnabled (config s))) /\
  config s2 = config s /\ same_buffer s s1 /\ same_buffer s s2.
Proof.
  intros Hl s1 s2. subst s2 s1.
  rewrite (deviceIoctl_enable_logging s arg Hl). simpl.
  rewrite deviceIoctl_enable_logging by exact Hl. simpl.
  rewrite negb_involutive. unfold same_buffer. simpl.
  destruct (config s). repeat split.
Qed.

Lemma enable_logging_twice_restores_config_witness :
  let s := newKernelSimulator 0 in
  snd (deviceIoctl "ENABLE_LOGGING" None s) = Resolved (LoggingToggled false) /\
  snd (deviceIoctl "ENABLE_LOGGING" None (fst (deviceIoctl "ENABLE_LOGGING" None s))) =
    Resolved (LoggingToggled true) /\
  config (fst (deviceIoctl "ENABLE_LOGGING" None
                 (fst (deviceIoctl "ENABLE_LOGGING" None s)))) = config s.
Proof.
  intros s.
  destruct (enable_logging_twice_restores_config s None None eq_refl)
    as (H1 & H2 & H3 & _).
  split; [exact H1|]. split; [exact H2 | exact H3].
Defined.

Lemma map_const_replicate {A B : Type} (b : B) (l : list A) :
  map (fun _ => b) l = replicate (length l) b.
Proof. induction l as [|x l IH]; simpl; [reflexivity | rewrite IH; reflexivity]. Qed.

(** X8: [CLEAR_BUFFER] always gives a fresh start.  On a loaded driver it
    succeeds whatever the state of the buffer and of the mutex, zeroes
    every cell, and resets the used count and the cursor; after it, with
    the mutex free, writing any non-empty [B] shorter than the capacity
    and reading [len B] bytes takes exactly the bytes [B] out of the
    buffer and returns them decoded as text, which for ASCII bytes is [B]
    character for character. *)
Theorem clear_buffer_gives_fresh_start
  (s : KernelSimulator) (arg : option Z) (B : list byte) (now now' : Z) :
  moduleLoaded s = true ->
  let s1 := fst (deviceIoctl "CLEAR_BUFFER" arg s) in
  snd (deviceIoctl "CLEAR_BUFFER" arg s) = Resolved BufferCleared /\
  bufferView s1 = replicate (length (bufferView s)) x00 /\
  bufferUsed s1 = 0 /\ bufferPosition s1 = 0 /\ bufferSize s1 = bufferSize s /\
  mutex s1 = mutex s /\
  (mutex s = false -> len (bufferView s) = bufferSize s ->
   B <> [] -> len B < bufferSize s ->
   snd (deviceWrite B now s1) = Resolved (mkWriteResult (len B)) /\
   read_window (fst (deviceWrite B now s1)) (len B) = B /\
   snd (deviceRead (len B) now' (fst (deviceWrite B now s1))) =
     Resolved (mkReadResult (TextDecoder_decode B) (len B)) /\
   (ascii_only B ->
    snd (deviceRead (len B) now' (fst (deviceWrite B now s1))) =
      Resolved (mkReadResult (map byte_val B) (len B)))).
Proof.
  intros Hl s1. subst s1. unfold deviceIoctl. rewrite Hl.
  cbn [negb]. cbv iota. rewrite deviceIoctl_timer_eq. simpl.
  rewrite map_const_replicate.
  split; [reflexivity|]. split; [reflexivity|]. split; [reflexivity|].
  split; [reflexivity|]. split; [reflexivity|]. split; [reflexivity|].
  intros Hm Hlen HB Hfit.
  match goal with |- snd (deviceWrite _ _ ?t) = _ /\ _ => set (s1 := t) end.
  assert (0 < len B) as HnB.
  { unfold len. destruct B; [congruence | simpl; lia]. }
  assert (len (bufferView s1) = bufferSize s1) as Hlen1.
  { unfold s1, len. simpl. rewrite length_replicate. exact Hlen. }
  destruct (written_bytes_are_readable s1 B now Hl Hm Hlen1 eq_refl)
    as (Hw & Hl2 & Hm2 & Hu2 & Hwin);
    [simpl; lia | exact HB | right; simpl; lia |].
  set (s2 := fst (deviceWrite B now s1)) in *.
  destruct (deviceRead_returns_window s2 (len B) now' Hl2 Hm2) as [Hr _];
    [lia|].
  replace (Z.min (len B) (bufferUsed s2)) with (len B) in Hr by lia.
  rewrite Hwin in Hr.
  split; [exact Hw|]. split; [exact Hwin|]. split; [exact Hr|].
  intros Hascii. rewrite Hr, TextDecoder_decode_ascii by exact Hascii.
  reflexivity.
Qed.

Lemma clear_buffer_gives_fresh_start_witness :
  let s := run_all [OpIoctl "SET_BUFFER_SIZE" (Some 4); OpWrite (bytes "abc") 1;
                    OpRead 3 2; OpWrite (bytes "de") 3] (newKernelSimulator 0) in
  let s1 := fst (deviceIoctl "CLEAR_BUFFER" None s) in
  bufferPosition s = 1 /\ bufferUsed s = 2 /\
  snd (deviceWrite (bytes "xyz") 5 s1) = Resolved (mkWriteResult 3) /\
  snd (deviceRead 3 6 (fst (deviceWrite (bytes "xyz") 5 s1))) =
    Resolved (mkReadResult (text "xyz") 3).
Proof.
  intros s s1. split; [reflexivity|]. split; [reflexivity|].
  destruct (clear_buffer_gives_fresh_start s None (bytes "xyz") 5 6 eq_refl)
    as (_ & _ & _ & _ & _ & _ & Hrt).
  destruct Hrt as (Hw & _ & _ & Ha);
    [reflexivity | reflexivity | discriminate | reflexivity |].
  split; [exact Hw|]. apply Ha. repeat constructor; discriminate.
Defined.

(** ** Module reload *)

(** X9: the data survives a reload.  Unloading a loaded module and loading
    it again (two [toggleModule] calls) leaves the module loaded with the
    same buffer, the same five counters and the same mutex flag, so every
    read returns what it would have returned before; the active counters
    are reset to 0 and the wait queue is emptied. *)
Theorem reload_keeps_the_data (s : KernelSimulator) (now1 now2 count now : Z) :
  moduleLoaded s = true ->
  let s2 := toggleModule now2 (toggleModule now1 s) in
  moduleLoaded (toggleModule now1 s) = false /\
  moduleLoaded s2 = true /\ same_buffer s s2 /\
  counters_eq (stats s) (stats s2) /\ mutex s2 = mutex s /\
  snd (deviceRead count now s2) = snd (deviceRead count now s) /\
  activeReaders s2 = 0 /\ activeWriters s2 = 0 /\ waitQueue s2 = [].
Proof.
  intros Hl. unfold toggleModule. rewrite Hl. simpl.
  unfold same_buffer, counters_eq. simpl.
  repeat split.
  unfold deviceRead. simpl. rewrite Hl. simpl.
  rewrite !deviceRead_timer_eq. simpl.
  repeat match goal with
  | |- context [if ?b then _ else _] => destruct b eqn:?
  end; reflexivity.
Qed.

Lemma reload_keeps_the_data_witness :
  let s := fst (deviceWrite (bytes "HELLO") 1 (newKernelSimulator 0)) in
  let s2 := toggleModule 3 (toggleModule 2 s) in
  moduleLoaded s = true /\
  snd (deviceRead 5 4 s2) = Resolved (mkReadResult (text "HELLO") 5) /\
  snd (deviceRead 5 4 s2) = snd (deviceRead 5 4 s).
Proof.
  intros s s2. split; [reflexivity|]. split; [reflexivity|].
  apply (reload_keeps_the_data s 2 3 5 4 eq_refl).
Defined.

(** ** Runs of a fresh driver *)

Lemma run_waitQueue_length (op : Op) (s : KernelSimulator) :
  (length (waitQueue (fst (run op s))) <= length (waitQueue s))%nat.
Proof.
  assert (forall now, length (tail (waitQueue s ++ [now])) = length (waitQueue s)) as Hq.
  { intros now. destruct (waitQueue s); simpl; [reflexivity|].
    rewrite length_app. simpl. lia. }
  assert (length (tail (waitQueue s)) <= length (waitQueue s))%nat as Ht.
  { destruct (waitQueue s); simpl; lia. }
  destruct op; cbn [run fst snd];
    unfold deviceWrite, deviceRead, deviceIoctl;
    rewrite ?deviceOpen_eq, ?deviceWrite_timer_eq, ?deviceRead_timer_eq,
      ?deviceIoctl_timer_eq; cbv zeta;
    repeat match goal with
    | |- context [if ?b then _ else _] => destruct b eqn:?
    end; simpl; rewrite ?Hq; try exact Ht; lia.
Qed.

Lemma run_all_snoc (ops : list Op) (op : Op) (s : KernelSimulator) :
  run_all (ops ++ [op]) s = fst (run op (run_all ops s)).
Proof. unfold run_all. rewrite fold_left_app. reflexivity. Qed.

Lemma run_all_waitQueue_length (ops : list Op) (s : KernelSimulator) :
  (length (waitQueue (run_all ops s)) <= length (waitQueue s))%nat.
Proof.
  induction ops as [|o ops IH] using rev_ind; [simpl; lia|].
  rewrite run_all_snoc.
  pose proof (run_waitQueue_length o (run_all ops s)). lia.
Qed.

(** X10: nothing is ever busy in a run of a fresh driver.  Whatever steps
    are taken one after the other, in any order and with late timer
    callbacks, no step fails with ['Resource busy'], and after every step
    the mutex is free, both active counters are 0 and the wait queue is
    empty. *)
Theorem fresh_driver_is_never_busy (now : Z) (ops : list Op) (op : Op) :
  let s := run_all ops (newKernelSimulator now) in
  snd (run op s) <> Failed ResourceBusy /\
  mutex s = false /\ activeReaders s = 0 /\ activeWriters s = 0 /\
  waitQueue s = [].
Proof.
  intros s.
  destruct (run_all_idle ops _ (newKernelSimulator_idle now)) as (Hm & Hr & Hw).
  fold s in Hm, Hr, Hw.
  split; [apply run_busy_needs_mutex, Hm|].
  split; [exact Hm|]. split; [exact Hr|]. split; [exact Hw|].
  pose proof (run_all_waitQueue_length ops (newKernelSimulator now)) as Hle.
  fold s in Hle. destruct (waitQueue s); [reflexivity | simpl in Hle; lia].
Qed.

(** X11: the wait queue never grows.  From any state, no step of the
    driver leaves more entries in [waitQueue] than it found: a call that
    finds the mutex taken pushes its timestamp and its own cleanup shifts
    the oldest entry out again. *)
Theorem wait_queue_never_grows (ops : list Op) (s : KernelSimulator) :
  (length (waitQueue (run_all ops s)) <= length (waitQueue s))%nat.
Proof. apply run_all_waitQueue_length. Qed.

Lemma run_size_within_max (op : Op) (s : KernelSimulator) :
  maxBufferSize (config s) = 8192 /\ bufferSize s <= 8192 ->
  maxBufferSize (config (fst (run op s))) = 8192 /\
  bufferSize (fst (run op s)) <= 8192.
Proof. intros [Hmax Hs]. run_paths op; split; lia. Qed.

Lemma run_all_size_within_max (ops : list Op) (s : KernelSimulator) :
  maxBufferSize (config s) = 8192 /\ bufferSize s <= 8192 ->
  maxBufferSize (config (run_all ops s)) = 8192 /\
  bufferSize (run_all ops s) <= 8192.
Proof.
  revert s. induction ops as [|op ops IH]; intros s Hs; simpl.
  - exact Hs.
  - apply IH, run_size_within_max, Hs.
Qed.

(** X12: the shape of the buffer along every run of a fresh driver: the
    capacity stays between 1 and 8192 bytes (the limit
    [config.maxBufferSize], which no step changes), the storage is always
    exactly as long as the capacity, and the cursor stays between 0 and the
    capacity. *)
Theorem buffer_shape_is_kept (now : Z) (ops : list Op) :
  let s := run_all ops (newKernelSimulator now) in
  1 <= bufferSize s <= 8192 /\
  maxBufferSize (config s) = 8192 /\
  len (bufferView s) = bufferSize s /\
  0 <= bufferPosition s <= bufferSize s.
Proof.
  intros s.
  destruct (run_all_buffer_wf ops _ (newKernelSimulator_buffer_wf now))
    as (Hs & Hl & _ & Hp).
  destruct (run_all_size_within_max ops (newKernelSimulator now)) as [Hmax Hle].
  { simpl. split; [reflexivity | lia]. }
  fold s in Hs, Hl, Hp, Hmax, Hle. repeat split; try assumption; lia.
Qed.

(** ** Accounting of the bytes *)

Lemma run_accounted (op : Op) (s : KernelSimulator) :
  accounted s -> accounted (fst (run op s)).
Proof. unfold accounted. intros [Hu Ha]. run_paths op; lia. Qed.

Lemma run_balanced (op : Op) (s : KernelSimulator) :
  is_ioctl_op op = false -> balanced s -> balanced (fst (run op s)).
Proof.
  unfold balanced. intros Hop [Hu Ha].
  destruct op; try discriminate; cbn [run fst snd];
    unfold deviceWrite, deviceRead;
    rewrite ?deviceOpen_eq, ?deviceWrite_timer_eq, ?deviceRead_timer_eq; cbv zeta;
    repeat match goal with
    | |- context [if ?b then _ else _] => destruct b eqn:?
    end; reflect_tests; unfold len in *; simpl; lia.
Qed.

Lemma run_all_accounted (ops : list Op) (s : KernelSimulator) :
  accounted s -> accounted (run_all ops s).
Proof.
  revert s. induction ops as [|op ops IH]; intros s Hs; simpl.
  - exact Hs.
  - apply IH, run_accounted, Hs.
Qed.

Lemma run_all_balanced (ops : list Op) (s : KernelSimulator) :
  (forall op, In op ops -> is_ioctl_op op = false) ->
  balanced s -> balanced (run_all ops s).
Proof.
  revert s. induction ops as [|op ops IH]; intros s Hops Hs; simpl.
  - exact Hs.
  - apply IH.
    + intros o Ho. apply Hops. right. exact Ho.
    + apply run_balanced; [apply Hops; left; reflexivity | exact Hs].
Qed.

(** X13: no byte is read that was not written.  Along every run of a
    fresh driver [stats.bytesRead + bufferUsed <= stats.bytesWritten]; and
    as long as no ioctl step has cleared or resized the buffer the two
    sides are equal: the bytes read and the bytes still unread add up to
    the bytes accepted. *)
Theorem bytes_are_accounted_for (now : Z) (ops : list Op) :
  let s := run_all ops (newKernelSimulator now) in
  bytesRead (stats s) + bufferUsed s <= bytesWritten (stats s) /\
  ((forall op, In op ops -> is_ioctl_op op = false) ->
   bytesRead (stats s) + bufferUsed s = bytesWritten (stats s)).
Proof.
  intros s. split.
  - apply (run_all_accounted ops (newKernelSimulator now)).
    unfold accounted. simpl. lia.
  - intros Hops.
    apply (run_all_balanced ops (newKernelSimulator now)); [exact Hops |].
    unfold balanced. simpl. lia.
Qed.

Lemma bytes_are_accounted_for_witness :
  let s := run_all [OpWrite (bytes "HELLOWORLD") 1; OpRead 4 2; OpOpen]
             (newKernelSimulator 0) in
  bytesWritten (stats s) = 10 /\ bytesRead (stats s) = 4 /\ bufferUsed s = 6 /\
  bytesRead (stats s) + bufferUsed s = bytesWritten (stats s).
Proof.
  intros s. split; [reflexivity|]. split; [reflexivity|]. split; [reflexivity|].
  apply (bytes_are_accounted_for 0
           [OpWrite (bytes "HELLOWORLD") 1; OpRead 4 2; OpOpen]).
  intros op [<-|[<-|[<-|[]]]]; reflexivity.
Defined.

(** ** The snapshot of [getStats] *)

(** X14: what a snapshot taken between the steps of a run of a fresh
    driver shows: used and free bytes add up to the capacity, the free
    room is never negative, and the snapshot never reports an active
    reader, an active writer or a queued waiter. *)
Theorem snapshot_between_steps (now : Z) (ops : list Op) :
  let snap := getStats (run_all ops (newKernelSimulator now)) in
  snap_bufferUsed snap + snap_bufferFree snap = snap_bufferSize snap /\
  0 <= snap_bufferFree snap <= snap_bufferSize snap /\
  snap_activeReaders snap = 0 /\ snap_activeWriters snap = 0 /\
  snap_queueLength snap = 0.
Proof.
  intros snap. subst snap. unfold getStats. simpl.
  pose proof (run_all_used_in_bounds ops _ (newKernelSimulator_used_in_bounds now))
    as Hu. unfold used_in_bounds in Hu.
  destruct (run_all_idle ops _ (newKernelSimulator_idle now)) as (_ & Hr & Hw).
  pose proof (run_all_waitQueue_length ops (newKernelSimulator now)) as Hq.
  simpl in Hq. unfold len.
  repeat split; try assumption; lia.
Qed.

(** * The kernel log *)

Lemma tail_drop {A : Type} (l : list A) : tail l = drop 1 l.
Proof. destruct l; reflexivity. Qed.

Lemma logKernel_all_snoc (calls : list LogEntry) (e : LogEntry) (logs : list LogEntry) :
  logKernel_all (calls ++ [e]) logs =
  logKernel (log_timestamp e) (log_pid e) (log_level e) (log_message e)
    (logKernel_all calls logs).
Proof. unfold logKernel_all. rewrite fold_left_app. reflexivity. Qed.

Lemma logKernel_all_last_100 (calls : list LogEntry) :
  logKernel_all calls [] = drop (length calls - 100) calls.
Proof.
  induction calls as [|e calls IH] using rev_ind; [reflexivity|].
  rewrite logKernel_all_snoc, IH. unfold logKernel.
  destruct e as [t l m p]. simpl.
  rewrite length_app. simpl.
  destruct (len (drop (length calls - 100) calls ++ [mkLogEntry t l m p]) >? 100) eqn:E;
    rewrite Z.gtb_ltb in E; [apply Z.ltb_lt in E | apply Z.ltb_ge in E];
    unfold len in E; rewrite length_app, length_drop in E; simpl in E.
  - rewrite tail_drop, <- (drop_app_le calls) by lia.
    rewrite drop_drop. f_equal. lia.
  - replace (length calls - 100)%nat with 0%nat by lia.
    replace (length calls + 1 - 100)%nat with 0%nat by lia. reflexivity.
Qed.

(** X15: the kernel log is a window over the last 100 messages.  After
    any number of [logKernel] calls on an empty log, [kernelLogs] holds
    exactly the newest 100 entries (all of them if there were fewer), in
    the order they were logged; it never holds more than 100. *)
Theorem kernel_log_keeps_last_100 (calls : list LogEntry) :
  logKernel_all calls [] = drop (length calls - 100) calls /\
  (length (logKernel_all calls []) <= 100)%nat /\
  (forall e, last (logKernel_all (calls ++ [e]) []) = Some e).
Proof.
  split; [apply logKernel_all_last_100|]. split.
  - rewrite logKernel_all_last_100, length_drop. lia.
  - intros e. rewrite logKernel_all_last_100.
    rewrite length_app. simpl.
    rewrite drop_app_le by lia. apply last_snoc.
Qed.

(** X16: [getKernelLogs(count)] returns the newest [count] entries of the
    log (the whole log if it is shorter) for a positive [count], but for a
    count of 0 it returns the whole log, not an empty list, since
    [slice(-0)] is [slice(0)]. *)
Theorem getKernelLogs_returns_newest (count : Z) (kernelLogs : list LogEntry) :
  getKernelLogs 0 kernelLogs = kernelLogs /\
  (0 < count ->
   getKernelLogs count kernelLogs =
     drop (length kernelLogs - Z.to_nat count) kernelLogs /\
   len (getKernelLogs count kernelLogs) = Z.min count (len kernelLogs)).
Proof.
  split.
  { unfold getKernelLogs, js_slice. simpl.
    replace (Z.min (- 0) (len kernelLogs)) with 0 by (unfold len; lia).
    reflexivity. }
  intros Hc. unfold getKernelLogs, js_slice.
  destruct (- count <? 0) eqn:E; [|apply Z.ltb_ge in E; lia].
  replace (Z.to_nat (Z.max (len kernelLogs + - count) 0))
    with (length kernelLogs - Z.to_nat count)%nat by (unfold len; lia).
  split; [reflexivity|]. unfold len. rewrite length_drop. lia.
Qed.

Lemma getKernelLogs_returns_newest_witness :
  let logs := logKernel_all
                [mkLogEntry "12:00:00.000" "INFO" "one" 1000;
                 mkLogEntry "12:00:01.000" "DEBUG" "two" 1001;
                 mkLogEntry "12:00:02.000" "ERROR" "three" 1002] [] in
  getKernelLogs 2 logs =
    [mkLogEntry "12:00:01.000" "DEBUG" "two" 1001;
     mkLogEntry "12:00:02.000" "ERROR" "three" 1002] /\
  len (getKernelLogs 2 logs) = Z.min 2 (len logs).
Proof.
  intros logs. split; [reflexivity|].
  apply (proj2 (getKernelLogs_returns_newest 2 logs)). reflexivity.
Defined.

Lemma dma_run_disabled_pending (evs : list DmaEvent) :
  run_pending (dma_run false evs) = [].
Proof.
  unfold dma_run. induction evs as [|ev evs IH] using rev_ind; [reflexivity|].
  rewrite fold_left_app. simpl. destruct ev as [size|k]; simpl.
  - exact IH.
  - rewrite IH, lookup_nil. exact IH.
Qed.

Lemma dma_run_disabled (evs : list DmaEvent) : run_dma (dma_run false evs) = newDma.
Proof.
  induction evs as [|ev evs IH] using rev_ind; [reflexivity|].
  pose proof (dma_run_disabled_pending evs) as Hp.
  unfold dma_run in *. rewrite fold_left_app. simpl.
  destruct ev as [size|k]; simpl.
  - exact IH.
  - rewrite Hp, lookup_nil. exact IH.
Qed.

(** * The throughput chart *)

Lemma updateChart_aligned {Num : Type} (zero : Num) (falsy : Num -> bool)
  (now : string) (readRate writeRate : Num) (c : ChartData Num) :
  length (readData c) = length (labels c) ->
  length (writeData c) = length (labels c) ->
  len (labels c) <= maxPoints c ->
  let c' := updateChart zero falsy now readRate writeRate c in
  length (readData c') = length (labels c') /\
  length (writeData c') = length (labels c') /\
  len (labels c') <= maxPoints c' /\ maxPoints c' = maxPoints c.
Proof.
  intros Hr Hw Hm. unfold updateChart. cbv zeta.
  destruct (len (labels c ++ [now]) >? maxPoints c) eqn:E;
    rewrite Z.gtb_ltb in E; [apply Z.ltb_lt in E | apply Z.ltb_ge in E];
    unfold len in *; simpl; rewrite ?tail_drop, ?length_drop, ?length_app in *;
    simpl in *; repeat split; lia.
Qed.

(** X17: the three series of the throughput chart stay aligned.  After
    any number of [updateChart] calls on a new dashboard, [labels],
    [readData] and [writeData] have the same length, which is never more
    than [maxPoints] = 30, and the newest label is the last one. *)
Theorem chart_series_stay_aligned {Num : Type} (zero : Num) (falsy : Num -> bool)
  (updates : list (string * Num * Num)) :
  let c := updateChart_all zero falsy updates newChartData in
  length (readData c) = length (labels c) /\
  length (writeData c) = length (labels c) /\
  len (labels c) <= 30 /\
  (forall now readRate writeRate,
     last (labels (updateChart zero falsy now readRate writeRate c)) = Some now).
Proof.
  intros c.
  assert (length (readData c) = length (labels c) /\
          length (writeData c) = length (labels c) /\
          len (labels c) <= maxPoints c /\ maxPoints c = 30) as (Hr & Hw & Hm & H30).
  { subst c. induction updates as [|[[now r] w] updates IH] using rev_ind.
    - simpl. repeat split. discriminate.
    - unfold updateChart_all in *. rewrite fold_left_app. simpl.
      destruct IH as (Hr & Hw & Hm & H30).
      destruct (updateChart_aligned zero falsy now r w _ Hr Hw Hm)
        as (Hr' & Hw' & Hm' & Hk).
      repeat split; try assumption. rewrite Hk. exact H30. }
  split; [exact Hr|]. split; [exact Hw|]. split; [lia|].
  intros now r w. unfold updateChart. cbv zeta.
  destruct (len (labels c ++ [now]) >? maxPoints c) eqn:E; simpl.
  - rewrite Z.gtb_ltb in E. apply Z.ltb_lt in E.
    unfold len in E. rewrite length_app in E. simpl in E.
    destruct (labels c) as [|l0 ls] eqn:El; [simpl in E; unfold len in Hm; lia|].
    simpl. apply last_snoc.
  - apply last_snoc.
Qed.

(** * DMA transfers *)

Lemma sumZ_snoc (l : list Z) (x : Z) : sumZ (l ++ [x]) = sumZ l + x.
Proof. induction l as [|y l IH]; simpl; [lia | rewrite IH; lia]. Qed.

Lemma sumZ_delete (l : list Z) (k : nat) (x : Z) :
  l !! k = Some x -> sumZ (delete k l) = sumZ l - x.
Proof.
  revert k. induction l as [|y l IH]; intros [|k] H; simpl in *; try discriminate.
  - inversion H. lia.
  - rewrite (IH k H). lia.
Qed.

Lemma length_delete_lookup (l : list Z) (k : nat) (x : Z) :
  l !! k = Some x -> len (delete k l) = len l - 1.
Proof.
  revert k. induction l as [|y l IH]; intros [|k] H; simpl in *; try discriminate.
  - unfold len. simpl. lia.
  - pose proof (IH k H) as IH'. unfold len in *. simpl. lia.
Qed.

Lemma dma_step_invariant (dmaEnabled : bool) (r : DmaRun) (ev : DmaEvent) :
  channels (run_dma r) = 4 /\
  activeTransfers (run_dma r) = len (run_pending r) /\
  activeTransfers (run_dma r) <= 4 /\
  totalTransferred (run_dma r) + sumZ (run_pending r) = sumZ (run_started r) /\
  (dmaEnabled = false -> run_started r = []) ->
  let r' := dma_step dmaEnabled r ev in
  channels (run_dma r') = 4 /\
  activeTransfers (run_dma r') = len (run_pending r') /\
  activeTransfers (run_dma r') <= 4 /\
  totalTransferred (run_dma r') + sumZ (run_pending r') = sumZ (run_started r') /\
  (dmaEnabled = false -> run_started r' = []).
Proof.
  intros (Hc & Ha & Hle & Ht & He). destruct ev as [size|k]; simpl.
  - unfold simulateDMA.
    destruct dmaEnabled; simpl.
    + destruct (activeTransfers (run_dma r) >=? channels (run_dma r)) eqn:E; simpl.
      * repeat split; assumption.
      * rewrite Z.geb_leb in E. apply Z.leb_gt in E.
        rewrite !sumZ_snoc. unfold len in *. rewrite length_app. simpl.
        repeat split; try lia; discriminate.
    + repeat split; assumption.
  - destruct (run_pending r !! k) as [size|] eqn:Ek; simpl.
    + rewrite (sumZ_delete _ _ _ Ek), (length_delete_lookup _ _ _ Ek).
      repeat split; try assumption; lia.
    + repeat split; assumption.
Qed.

(** X18: the DMA engine never runs more than its 4 channels.  Along any
    sequence of [simulateDMA] calls and completion timers, in any order,
    [activeTransfers] equals the number of transfers whose timer has not
    fired yet and stays between 0 and 4; the bytes counted in
    [totalTransferred] plus the bytes of the transfers still running are
    the bytes of all transfers started; with DMA disabled nothing is ever
    started. *)
Theorem dma_never_exceeds_channels (dmaEnabled : bool) (evs : list DmaEvent) :
  let r := dma_run dmaEnabled evs in
  0 <= activeTransfers (run_dma r) <= 4 /\
  activeTransfers (run_dma r) = len (run_pending r) /\
  totalTransferred (run_dma r) + sumZ (run_pending r) = sumZ (run_started r) /\
  (run_pending r = [] -> totalTransferred (run_dma r) = sumZ (run_started r)) /\
  (dmaEnabled = false -> run_started r = [] /\ run_dma r = newDma).
Proof.
  intros r.
  assert (channels (run_dma r) = 4 /\
          activeTransfers (run_dma r) = len (run_pending r) /\
          activeTransfers (run_dma r) <= 4 /\
          totalTransferred (run_dma r) + sumZ (run_pending r) = sumZ (run_started r) /\
          (dmaEnabled = false -> run_started r = [])) as (Hc & Ha & Hle & Ht & He).
  { subst r. unfold dma_run.
    induction evs as [|ev evs IH] using rev_ind.
    - simpl. repeat split; try reflexivity. discriminate.
    - rewrite fold_left_app. simpl. apply dma_step_invariant, IH. }
  split; [unfold len in Ha; lia|]. split; [exact Ha|]. split; [exact Ht|].
  split.
  - intros Hp. rewrite Hp in Ht. simpl in Ht. lia.
  - intros Hd. split; [apply He, Hd|].
    subst r dmaEnabled. apply dma_run_disabled.
Qed.

(** * The memory map *)

Lemma simulateMemoryLeak_all_closed_form (leakSizes : list Z) (m : MemoryMap) :
  Forall (fun leakSize => 0 <= leakSize) leakSizes -> 0 <= free m ->
  let m' := simulateMemoryLeak_all leakSizes m in
  kernel m' = kernel m /\ buffer m' = buffer m /\ stack m' = stack m /\
  heap m' = heap m + sumZ leakSizes /\
  free m' = Z.max 0 (free m - sumZ leakSizes).
Proof.
  revert m. induction leakSizes as [|x l IH]; intros m Hl Hf; simpl.
  - repeat split; lia.
  - inversion Hl as [|? ? Hx Hl']; subst.
    destruct (IH (simulateMemoryLeak x m) Hl') as (Hk & Hb & Hs & Hh & Hfr).
    { simpl. lia. }
    unfold simulateMemoryLeak_all in *. simpl in *.
    assert (0 <= sumZ l) as Hsum.
    { clear -Hl'. induction Hl'; simpl; lia. }
    repeat split; try assumption; lia.
Qed.

(** X19: leaked memory moves from [free] to [heap] until [free] runs out.
    After any number of [simulateMemoryLeak] calls on the initial map with
    non-negative leak sizes adding up to [L], [heap] has grown by [L],
    [free] is [max 0 (2097152 - L)] and so never negative, the other
    segments are untouched, and the total reported by [getMemoryMap] is the
    initial 3866624 bytes as long as [L <= 2097152] and exceeds it by
    [L - 2097152] afterwards. *)
Theorem memory_leak_moves_free_to_heap (leakSizes : list Z) :
  Forall (fun leakSize => 0 <= leakSize) leakSizes ->
  let m := simulateMemoryLeak_all leakSizes newMemoryMap in
  let L := sumZ leakSizes in
  heap m = 524288 + L /\
  free m = Z.max 0 (2097152 - L) /\ 0 <= free m /\
  kernel m = 1048576 /\ buffer m = 65536 /\ stack m = 131072 /\
  getMemoryMap_total m = 3866624 + Z.max 0 (L - 2097152).
Proof.
  intros Hl m L.
  destruct (simulateMemoryLeak_all_closed_form leakSizes newMemoryMap Hl)
    as (Hk & Hb & Hs & Hh & Hf).
  { simpl. lia. }
  fold m in Hk, Hb, Hs, Hh, Hf. fold L in Hh, Hf. simpl in *.
  unfold getMemoryMap_total. simpl. rewrite Hk, Hb, Hs, Hh, Hf.
  repeat split; lia.
Qed.

Lemma memory_leak_moves_free_to_heap_witness :
  let m := simulateMemoryLeak_all [59999; 10000] newMemoryMap in
  Forall (fun leakSize => 0 <= leakSize) [59999; 10000] /\
  heap m = 524288 + 69999 /\ free m = 2097152 - 69999 /\
  getMemoryMap_total m = 3866624.
Proof.
  intros m.
  assert (Forall (fun leakSize => 0 <= leakSize) [59999; 10000]) as Hl
    by (repeat constructor; discriminate).
  destruct (memory_leak_moves_free_to_heap [59999; 10000] Hl)
    as (Hh & Hf & _ & _ & _ & _ & Ht).
  split; [exact Hl|]. split; [exact Hh|]. split; [exact Hf | exact Ht].
Defined.

(** * The application controller *)

(** X20: what the [SET_BUFFER_SIZE] button can do to a loaded driver.  A
    cancelled dialog, a non-numeric answer and an answer [<= 0] never
    reach the driver, which stays as it was.  Any other answer [n] either
    resizes the buffer to exactly [n] (never to the default 2048), or,
    when [n] is above [config.maxBufferSize], is rejected with ['Buffer
    size exceeds maximum allowed'] and leaves the buffer unchanged; the
    allocation [RangeError] cannot occur. *)
Theorem set_buffer_size_from_the_ui (s : KernelSimulator) (answer : option (option Z)) :
  moduleLoaded s = true ->
  let s' := fst (ioctlCommand "SET_BUFFER_SIZE" answer s) in
  match snd (ioctlCommand "SET_BUFFER_SIZE" answer s) with
  | UiReturned => answer = None /\ s' = s
  | UiInvalid =>
      (answer = Some None \/ exists n, answer = Some (Some n) /\ n <= 0) /\ s' = s
  | UiAwaited (Resolved r) =>
      exists n, answer = Some (Some n) /\ 0 < n <= maxBufferSize (config s) /\
                r = BufferSizeSet n /\ bufferSize s' = n
  | UiAwaited (Rejected e) =>
      exists n, answer = Some (Some n) /\ maxBufferSize (config s) < n /\
                e = BufferSizeExceedsMax /\ same_buffer s s'
  | UiAwaited Pending => False
  end.
Proof.
  intros Hl. unfold ioctlCommand. simpl.
  destruct answer as [[n|]|]; simpl.
  - destruct (n <=? 0) eqn:E; simpl.
    + apply Z.leb_le in E. split; [|reflexivity]. right. exists n. split; [reflexivity | exact E].
    + apply Z.leb_gt in E. unfold deviceIoctl.
      destruct (moduleLoaded s); [|discriminate]. simpl.
      rewrite deviceIoctl_timer_eq. simpl.
      destruct (n =? 0) eqn:E0; [apply Z.eqb_eq in E0; lia|].
      destruct (n >? maxBufferSize (config s)) eqn:E1; rewrite Z.gtb_ltb in E1;
        [apply Z.ltb_lt in E1 | apply Z.ltb_ge in E1]; simpl.
      * exists n. unfold same_buffer. simpl. repeat split. exact E1.
      * destruct (n <? 0) eqn:E2; [apply Z.ltb_lt in E2; lia|]. simpl.
        exists n. repeat split; lia.
  - split; [left; reflexivity | reflexivity].
  - split; reflexivity.
Qed.

Lemma set_buffer_size_from_the_ui_witness :
  let s := newKernelSimulator 0 in
  snd (ioctlCommand "SET_BUFFER_SIZE" (Some (Some 4096)) s) =
    UiAwaited (Resolved (BufferSizeSet 4096)) /\
  exists n, Some (Some 4096) = Some (Some n) /\ 0 < n <= maxBufferSize (config s) /\
            BufferSizeSet 4096 = BufferSizeSet n /\
            bufferSize (fst (ioctlCommand "SET_BUFFER_SIZE" (Some (Some 4096)) s)) = n.
Proof.
  intros s. split; [reflexivity|].
  exact (set_buffer_size_from_the_ui s (Some (Some 4096)) eq_refl).
Defined.

Lemma list_byte_of_string_append (a b : string) :
  list_byte_of_string (String.append a b) =
  list_byte_of_string a ++ list_byte_of_string b.
Proof.
  induction a as [|c a IH]; [reflexivity|].
  unfold list_byte_of_string in *. simpl. rewrite IH. reflexivity.
Qed.

Lemma charAt_chars_in_range (i : Z) :
  0 <= i < 62 -> length (list_byte_of_string (charAt chars i)) = 1%nat.
Proof.
  intros Hi. unfold charAt.
  destruct (i <? 0) eqn:E; [apply Z.ltb_lt in E; lia|].
  assert (Z.to_nat i < 62)%nat as Hn by lia.
  generalize dependent (Z.to_nat i). intros n Hn.
  do 62 (destruct n as [|n]; [reflexivity|]). lia.
Qed.

Lemma generateRandomData_length (draws : Z -> Z) (size : Z) :
  (forall i, 0 <= draws i < 62) -> 0 <= size ->
  len (list_byte_of_string (generateRandomData draws size)) = size.
Proof.
  intros Hd Hs. rewrite <- (Z2Nat.id size) by exact Hs.
  generalize (Z.to_nat size). intros k. unfold generateRandomData, len.
  induction k as [|k IH]; [reflexivity|].
  rewrite for_loop_succ, list_byte_of_string_append, length_app.
  rewrite charAt_chars_in_range by apply Hd. lia.
Qed.

(** The fields of the driver after a write and after a read that go
    through. *)
Lemma write_on_idle (s : KernelSimulator) (dataBytes : list byte) (now : Z) :
  moduleLoaded s = true -> mutex s = false ->
  let n := Z.min (len dataBytes) (bufferSize s - bufferUsed s) in
  n <> 0 ->
  exists s1,
    deviceWrite dataBytes now s = (s1, Resolved (mkWriteResult n)) /\
    moduleLoaded s1 = true /\ mutex s1 = false /\
    bufferUsed s1 = bufferUsed s + n /\ bufferSize s1 = bufferSize s /\
    stats s1 = add_bytesWritten n (stats s).
Proof.
  intros Hl Hm n Hn. unfold deviceWrite. rewrite Hl. simpl.
  rewrite deviceWrite_timer_free by exact Hm. cbv zeta. fold n.
  destruct (n =? 0) eqn:E; [apply Z.eqb_eq in E; contradiction|].
  eexists. split; [reflexivity|]. simpl. repeat split; assumption.
Qed.

Lemma read_on_idle (s : KernelSimulator) (count now : Z) :
  moduleLoaded s = true -> mutex s = false ->
  let n := Z.min count (bufferUsed s) in
  0 < n ->
  exists s1 data,
    deviceRead count now s = (s1, Resolved (mkReadResult data n)) /\
    moduleLoaded s1 = true /\ mutex s1 = false /\
    bufferUsed s1 = bufferUsed s - n /\ bufferSize s1 = bufferSize s /\
    stats s1 = add_bytesRead n (stats s).
Proof.
  intros Hl Hm n Hn. unfold deviceRead. rewrite Hl. simpl.
  rewrite deviceRead_timer_free by exact Hm. cbv zeta. fold n.
  destruct (n =? 0) eqn:E; [apply Z.eqb_eq in E; lia|].
  destruct (n <? 0) eqn:E2; [apply Z.ltb_lt in E2; lia|].
  eexists. eexists. split; [reflexivity|]. simpl. repeat split; assumption.
Qed.

(** One round of the benchmark on an empty buffer. *)
Lemma runBenchmark_iteration_spec (s : KernelSimulator) (draws : Z -> Z) (now1 now2 : Z) :
  (forall i, 0 <= draws i < 62) ->
  moduleLoaded s = true -> mutex s = false ->
  bufferUsed s = 0 -> 50 <= bufferSize s ->
  let s' := runBenchmark_iteration s (draws, now1, now2) in
  moduleLoaded s' = true /\ mutex s' = false /\
  bufferUsed s' = 0 /\ bufferSize s' = bufferSize s /\
  bytesWritten (stats s') = bytesWritten (stats s) + 50 /\
  bytesRead (stats s') = bytesRead (stats s) + 50 /\
  errorCount (stats s') = errorCount (stats s).
Proof.
  intros Hd Hl Hm Hu Hs. unfold runBenchmark_iteration. cbv zeta.
  pose proof (generateRandomData_length draws 50 Hd) as Hlen.
  generalize dependent (list_byte_of_string (generateRandomData draws 50)).
  intros writeData Hlen.
  assert (len writeData = 50) as H50 by (apply Hlen; lia). clear Hlen.
  destruct (write_on_idle s writeData now1 Hl Hm)
    as (s1 & Hw & Hl1 & Hm1 & Hu1 & Hs1 & Hst1); [lia|].
  replace (Z.min (len writeData) (bufferSize s - bufferUsed s)) with 50 in * by lia.
  rewrite Hw.
  destruct (read_on_idle s1 50 now2 Hl1 Hm1)
    as (s2 & data & Hr & Hl2 & Hm2 & Hu2 & Hs2 & Hst2); [lia|].
  replace (Z.min 50 (bufferUsed s1)) with 50 in * by lia.
  rewrite Hr. cbn [fst]. rewrite Hst2, Hst1. simpl.
  repeat split; try assumption; lia.
Qed.

(** X21: a benchmark on an empty buffer moves 50 bytes in and 50 bytes
    out per iteration.  On a loaded driver with the mutex free, an empty
    buffer and a capacity of at least 50, every [generateRandomData(50)]
    is 50 characters long, so after [k] iterations of [runBenchmark] the
    buffer is empty again, [bytesWritten] and [bytesRead] have both grown
    by [50 * k], and no error has been counted. *)
Theorem benchmark_moves_fifty_bytes_each_way
  (its : list ((Z -> Z) * Z * Z)) (s : KernelSimulator) :
  Forall (fun it => forall i, 0 <= fst (fst it) i < 62) its ->
  moduleLoaded s = true -> mutex s = false ->
  bufferUsed s = 0 -> 50 <= bufferSize s ->
  let s' := runBenchmark its s in
  bufferUsed s' = 0 /\
  bytesWritten (stats s') = bytesWritten (stats s) + 50 * len its /\
  bytesRead (stats s') = bytesRead (stats s) + 50 * len its /\
  errorCount (stats s') = errorCount (stats s).
Proof.
  intros Hits. revert s.
  induction Hits as [|[[draws now1] now2] its Hd Hits IH]; intros s Hl Hm Hu Hs.
  - simpl. unfold len. simpl. repeat split; lia.
  - simpl in Hd.
    destruct (runBenchmark_iteration_spec s draws now1 now2 Hd Hl Hm Hu Hs)
      as (Hl' & Hm' & Hu' & Hs' & Hw & Hr & He).
    specialize (IH _ Hl' Hm' Hu'). destruct IH as (Hu2 & Hw2 & Hr2 & He2); [lia|].
    unfold runBenchmark in *. cbn [fold_left].
    unfold len in *. cbn [length]. repeat split; try assumption; lia.
Qed.

Lemma benchmark_moves_fifty_bytes_each_way_witness :
  let its := [(fun i => i mod 62, 1, 2); (fun i => (7 * i) mod 62, 3, 4)] in
  let s' := runBenchmark its (newKernelSimulator 0) in
  bufferUsed s' = 0 /\
  bytesWritten (stats s') = 0 + 50 * len its /\
  bytesRead (stats s') = 0 + 50 * len its /\
  errorCount (stats s') = 0.
Proof.
  intros its.
  apply (benchmark_moves_fifty_bytes_each_way its (newKernelSimulator 0)).
  - constructor; [intros i; apply Z.mod_pos_bound; reflexivity|].
    constructor; [intros i; apply Z.mod_pos_bound; reflexivity|].
    constructor.
  - reflexivity.
  - reflexivity.
  - reflexivity.
  - discriminate.
Defined.

(** * Late callbacks and resizing *)

(** X22: unloading does not stop a write that is already under way.  The
    module check is made when [deviceWrite] is called; if the module is
    unloaded before the timer fires, the callback still runs: with the
    mutex free, some data and some room it stores the bytes and resolves,
    although the module is unloaded and a new call at that moment is
    refused with ['No such device']. *)
Theorem scheduled_write_survives_unload
  (s : KernelSimulator) (dataBytes : list byte) (now : Z) :
  mutex s = false -> dataBytes <> [] -> 0 <= bufferUsed s < bufferSize s ->
  let u := unloadModule s in
  let n := Z.min (len dataBytes) (bufferSize s - bufferUsed s) in
  moduleLoaded u = false /\
  run (OpWrite dataBytes now) u = (u, Failed NoSuchDevice) /\
  snd (run (OpWriteTimer dataBytes now) u) = Wrote (mkWriteResult n) /\
  0 < n /\
  bufferUsed (fst (run (OpWriteTimer dataBytes now) u)) = bufferUsed s + n /\
  bytesWritten (stats (fst (run (OpWriteTimer dataBytes now) u))) =
    bytesWritten (stats s) + n /\
  moduleLoaded (fst (run (OpWriteTimer dataBytes now) u)) = false.
Proof.
  intros Hm Hd Hu u n.
  assert (0 < len dataBytes) as Hlen.
  { unfold len. destruct dataBytes; [congruence | simpl; lia]. }
  split; [reflexivity|]. split; [reflexivity|].
  cbn [run fst snd]. rewrite deviceWrite_timer_free by exact Hm.
  cbv zeta. simpl bufferSize. simpl bufferUsed. fold n.
  destruct (n =? 0) eqn:E; [apply Z.eqb_eq in E; lia|].
  simpl. repeat split; lia.
Qed.

Lemma scheduled_write_survives_unload_witness :
  let s := newKernelSimulator 0 in
  let u := unloadModule s in
  run (OpWrite (bytes "late") 1) u = (u, Failed NoSuchDevice) /\
  snd (run (OpWriteTimer (bytes "late") 1) u) = Wrote (mkWriteResult 4) /\
  bufferUsed (fst (run (OpWriteTimer (bytes "late") 1) u)) = 4.
Proof.
  intros s u.
  destruct (scheduled_write_survives_unload s (bytes "late") 1)
    as (_ & H1 & H2 & _ & H3 & _); try reflexivity; try discriminate.
  - split; [discriminate | reflexivity].
  - split; [exact H1|]. split; [exact H2 | exact H3].
Defined.

(** X23: what a successful resize leaves in the buffer.  On a loaded
    driver whose used count is not negative, [SET_BUFFER_SIZE] with a size
    [n] between 1 and [config.maxBufferSize] succeeds; the capacity and
    the length of the storage become [n], the used count becomes
    [min used n], the cursor [min cursor n], and the new storage holds the
    first [min used n] cells of the old storage followed by zeros. *)
Theorem resize_result (s : KernelSimulator) (n : Z) :
  moduleLoaded s = true -> 0 <= bufferUsed s ->
  0 < n <= maxBufferSize (config s) ->
  let s' := fst (deviceIoctl "SET_BUFFER_SIZE" (Some n) s) in
  let kept := Z.to_nat (Z.min (bufferUsed s) n) in
  snd (deviceIoctl "SET_BUFFER_SIZE" (Some n) s) = Resolved (BufferSizeSet n) /\
  bufferSize s' = n /\ len (bufferView s') = n /\
  bufferUsed s' = Z.min (bufferUsed s) n /\
  bufferPosition s' = Z.min (bufferPosition s) n /\
  bufferView s' =
    map (fun i => u8_get (bufferView s) (Z.of_nat i)) (seq 0 kept) ++
    replicate (Z.to_nat n - kept) x00.
Proof.
  intros Hl Hu Hn s' kept. subst s' kept. unfold deviceIoctl.
  destruct (moduleLoaded s); [|discriminate]. simpl.
  rewrite deviceIoctl_timer_eq. simpl.
  destruct (n =? 0) eqn:E0; [apply Z.eqb_eq in E0; lia|].
  destruct (n >? maxBufferSize (config s)) eqn:E1;
    [rewrite Z.gtb_ltb in E1; apply Z.ltb_lt in E1; lia|].
  destruct (n <? 0) eqn:E2; [apply Z.ltb_lt in E2; lia|].
  simpl. rewrite resized_view_len by lia.
  repeat split. apply resized_view_eq. lia.
Qed.

Lemma resize_result_witness :
  let s := fst (deviceWrite (bytes "abcdef") 1 (newKernelSimulator 0)) in
  let s' := fst (deviceIoctl "SET_BUFFER_SIZE" (Some 4) s) in
  snd (deviceIoctl "SET_BUFFER_SIZE" (Some 4) s) = Resolved (BufferSizeSet 4) /\
  bufferSize s' = 4 /\ bufferUsed s' = 4 /\ bufferPosition s' = 4 /\
  bufferView s' = bytes "abcd".
Proof.
  intros s s'.
  destruct (resize_result s 4) as (H1 & H2 & _ & H3 & H4 & H5);
    try reflexivity; try discriminate.
  - split; [reflexivity | discriminate].
  - split; [exact H1|]. split; [exact H2|]. split; [exact H3|].
    split; [exact H4 | exact H5].
Defined.
